(** * vscode-marketplace-client: a shallow embedding of the marketplace service

    The development follows [src/services/vscode-marketplace-service.ts],
    the facade object of [src/index.ts], the error classes of [src/errors]
    and the interfaces of [src/types].

    - JSON data is modelled with records and lists, as the TypeScript
      interfaces declare it.
    - An [async] method is a function from the state of the world to a
      settled promise and the next state of the world.  The world holds the
      state of the remote side, the log of the requests that were sent and
      the local file system.
    - A JavaScript exception is a rejected promise.  Reading a property of
      [undefined] rejects with a [TypeError], as the runtime does. *)

From Stdlib Require Import ZArith Lia Permutation.
From Stdlib.Strings Require Import Byte Ascii.
From stdpp Require Import gmap strings list.

Local Open Scope Z_scope.
Local Open Scope string_scope.
Local Open Scope list_scope.

(* ================================================================== *)
(** ** Types ([src/types]) *)
(* ================================================================== *)

(** [QueryFlag] is a closed union of numeric literals. *)
Inductive QueryFlag : Type :=
| QF0 | QF1 | QF2 | QF4 | QF8 | QF16 | QF32 | QF64 | QF128 | QF256
| QF512 | QF1024 | QF2048 | QF4096 | QF8192 | QF16384 | QF16863 | QF32768.

(** The number behind a flag: what [(flags as number[])] exposes. *)
Definition flagValue (f : QueryFlag) : Z :=
  match f with
  | QF0 => 0 | QF1 => 1 | QF2 => 2 | QF4 => 4 | QF8 => 8 | QF16 => 16
  | QF32 => 32 | QF64 => 64 | QF128 => 128 | QF256 => 256 | QF512 => 512
  | QF1024 => 1024 | QF2048 => 2048 | QF4096 => 4096 | QF8192 => 8192
  | QF16384 => 16384 | QF16863 => 16863 | QF32768 => 32768
  end.

(** Fields named [flags], [displayName] and [lastUpdated] occur in several
    interfaces; they carry the interface as a prefix here. *)
Record PublisherInfo : Type := {
  publisherId : string;
  publisherName : string;
  publisher_displayName : string;
  publisher_flags : string;
  domain : string;
  isDomainVerified : bool
}.

Record ExtensionFile : Type := {
  assetType : string;
  source : string
}.

Record ExtensionVersion : Type := {
  version : string;
  version_flags : string;
  version_lastUpdated : string;
  files : list ExtensionFile;
  assetUri : string;
  fallbackAssetUri : string
}.

Record ExtensionInfo : Type := {
  publisher : PublisherInfo;
  extensionId : string;
  extensionName : string;
  displayName : string;
  flags : string;
  lastUpdated : string;
  publishedDate : string;
  releaseDate : string;
  presentInConflictList : string;
  shortDescription : string;
  versions : list ExtensionVersion;
  categories : list string;
  tags : list string;
  statistics : gmap string Z;
  deploymentType : Z
}.

Record SearchResults : Type := {
  extensions : list ExtensionInfo
}.

(* ================================================================== *)
(** ** Errors ([src/errors]) *)
(* ================================================================== *)

(** The three subclasses of [VSCodeExtensionError] keep the arguments their
    constructors receive; the other constructors are the failures that come
    from the runtime, the HTTP layer and the file layer.  The [timestamp] of
    the base class is the clock's and no subclass passes an [errorCode]:
    neither is kept. *)
Inductive JsError : Type :=
| ExtensionNotFoundError (extensionId : string)
| VersionNotFoundError (extensionId version : string)
| VsixFileNotFoundError (extensionId : string)
| TypeError (property : string)
| AxiosError (code : string)
| FsError (code : string).

(** [this.name] after construction. *)
Definition errorName (e : JsError) : string :=
  match e with
  | ExtensionNotFoundError _ => "ExtensionNotFoundError"
  | VersionNotFoundError _ _ => "VersionNotFoundError"
  | VsixFileNotFoundError _ => "VsixFileNotFoundError"
  | TypeError _ => "TypeError"
  | AxiosError _ => "AxiosError"
  | FsError _ => "Error"
  end.

(** The character [U+0022], which delimits the quoted parts of a message. *)
Definition dquote : string := String (ascii_of_nat 34) EmptyString.

(** The message handed to [super(...)]. *)
Definition errorMessage (e : JsError) : string :=
  match e with
  | ExtensionNotFoundError extensionId =>
      "Extension " +:+ dquote +:+ extensionId +:+ dquote +:+ " not found."
  | VersionNotFoundError extensionId version =>
      "Version " +:+ dquote +:+ version +:+ dquote +:+ " for extension "
        +:+ dquote +:+ extensionId +:+ dquote +:+ " not found."
  | VsixFileNotFoundError extensionId =>
      "VSIX file for extension " +:+ dquote +:+ extensionId +:+ dquote
        +:+ " not found."
  | TypeError property =>
      "Cannot read properties of undefined (reading '" +:+ property +:+ "')"
  | AxiosError code => code
  | FsError code => code
  end.

(** [e instanceof VSCodeExtensionError]: the typed, domain errors. *)
Definition isVSCodeExtensionError (e : JsError) : bool :=
  match e with
  | ExtensionNotFoundError _ | VersionNotFoundError _ _
  | VsixFileNotFoundError _ => true
  | TypeError _ | AxiosError _ | FsError _ => false
  end.

(** [e instanceof ExtensionNotFoundError]. *)
Definition isExtensionNotFound (e : JsError) : bool :=
  match e with ExtensionNotFoundError _ => true | _ => false end.

(* ================================================================== *)
(** ** The world around the service *)
(* ================================================================== *)

(** The body of the query, as the object literal of [fetchExtensionData]
    builds it.  Its [flags] field is [payload_flags] here. *)
Record Criterion : Type := {
  filterType : Z;
  value : string
}.

Record FilterGroup : Type := {
  criteria : list Criterion
}.

Record Payload : Type := {
  filters : list FilterGroup;
  payload_flags : Z
}.

(** One call of [axios.post(url, body, { headers })]. *)
Record PostRequest : Type := {
  post_url : string;
  post_body : Payload;
  post_headers : list (string * string)
}.

(** What the service imports: [axios], [fs.createWriteStream] and
    [path.join].  The remote side has a state of type [S], so that it may
    answer the same request differently at different times.
    - [axios_post] answers with [data.results] or rejects;
    - [axios_get] answers with the bytes of the response stream or rejects;
    - [createWriteStream] gives the error the writer emits when the
      destination cannot be opened, if any;
    - [join] is [path.join] on two segments. *)
Record Platform (S : Type) : Type := {
  axios_post : PostRequest -> S -> (JsError + list SearchResults) * S;
  axios_get : string -> S -> (JsError + list byte) * S;
  createWriteStream : string -> option JsError;
  join : string -> string -> string
}.

Arguments axios_post {S} _ _ _.
Arguments axios_get {S} _ _ _.
Arguments createWriteStream {S} _ _.
Arguments join {S} _ _ _.

(** The state a call runs in: the remote side, the requests sent so far
    (oldest first) and the files on disk. *)
Record World (S : Type) : Type := {
  remote : S;
  posted : list PostRequest;
  fetched : list string;
  fs : gmap string (list byte)
}.

Arguments remote {S} _.
Arguments posted {S} _.
Arguments fetched {S} _.
Arguments fs {S} _.

(** The world after a POST was answered, after a GET was answered, and
    after the writer has flushed [data] to [destination]. *)
Definition afterPost {S : Type} (w : World S) (request : PostRequest)
    (s' : S) : World S :=
  {| remote := s'; posted := posted w ++ [request];
     fetched := fetched w; fs := fs w |}.

Definition afterGet {S : Type} (w : World S) (url : string) (s' : S)
    : World S :=
  {| remote := s'; posted := posted w;
     fetched := fetched w ++ [url]; fs := fs w |}.

Definition afterWrite {S : Type} (w : World S) (destination : string)
    (data : list byte) : World S :=
  {| remote := remote w; posted := posted w;
     fetched := fetched w; fs := <[destination := data]> (fs w) |}.

(** A promise once it has settled. *)
Inductive Settled (A : Type) : Type :=
| Resolved (a : A)
| Rejected (e : JsError).

Arguments Resolved {A} _.
Arguments Rejected {A} _.

(** An [async] function body. *)
Definition Promise (S A : Type) : Type := World S -> Settled A * World S.

Definition ret {S A : Type} (a : A) : Promise S A :=
  fun w => (Resolved a, w).

Definition throw {S A : Type} (e : JsError) : Promise S A :=
  fun w => (Rejected e, w).

(** [await]: a rejection of the awaited promise leaves the function. *)
Definition bind {S A B : Type} (m : Promise S A) (k : A -> Promise S B)
  : Promise S B :=
  fun w =>
    match m w with
    | (Resolved a, w') => k a w'
    | (Rejected e, w') => (Rejected e, w')
    end.

Notation "'await' x <- m ; k" := (bind m (fun x => k))
  (at level 10, x name, m at level 100, k at level 200, only parsing).

(** [x.p] where [x] may be [undefined]. *)
Definition prop {S A B : Type} (x : option A) (name : string) (p : A -> B)
  : Promise S B :=
  match x with
  | Some a => ret (p a)
  | None => throw (TypeError name)
  end.

(* ================================================================== *)
(** ** The service ([src/services/vscode-marketplace-service.ts]) *)
(* ================================================================== *)

Definition API_URL : string :=
  "https://marketplace.visualstudio.com/_apis/public/gallery/extensionquery".

Definition VSIXPackage : string :=
  "Microsoft.VisualStudio.Services.VSIXPackage".

(** [ToInt32] of an integral number. *)
Definition toInt32 (x : Z) : Z := (x + 2 ^ 31) mod 2 ^ 32 - 2 ^ 31.

(** [a | b] on numbers: both operands go through [ToInt32]. *)
Definition bitor (a b : Z) : Z := Z.lor (toInt32 a) (toInt32 b).

(** [(flags as number[]).reduce((acc, flag) => acc | flag, 0)]. *)
Definition encodeFlags (flags : list Z) : Z :=
  fold_left (fun acc flag => bitor acc flag) flags 0.

(** The [payload] literal of [fetchExtensionData]. *)
Definition queryPayload (publisher extension : string)
    (flags : list QueryFlag) : Payload :=
  {| filters :=
       [ {| criteria :=
              [ {| filterType := 7;
                   value := publisher +:+ "." +:+ extension |} ] |} ];
     payload_flags := encodeFlags (map flagValue flags) |}.

Definition queryHeaders : list (string * string) :=
  [ ("Content-Type", "application/json");
    ("Accept", "application/json;api-version=6.0-preview.1") ].

Definition queryRequest (publisher extension : string)
    (flags : list QueryFlag) : PostRequest :=
  {| post_url := API_URL;
     post_body := queryPayload publisher extension flags;
     post_headers := queryHeaders |}.

(** [!version] for [version?: string]: [undefined] and the empty string. *)
Definition isFalsy (version : option string) : bool :=
  match version with
  | None => true
  | Some EmptyString => true
  | Some (String _ _) => false
  end.

(** The callback of [files.find] in [getVsixDownloadUrl]. *)
Definition isVsixAsset (file : ExtensionFile) : bool :=
  String.eqb (assetType file) VSIXPackage.

Section Service.
Context {S : Type} (P : Platform S).

Definition fetchExtensionData (publisher extension : string)
    (flags : list QueryFlag) : Promise S (list SearchResults) :=
  fun w =>
    let request := queryRequest publisher extension flags in
    match axios_post P request (remote w) with
    | (inr results, s') => (Resolved results, afterPost w request s')
    | (inl e, s') => (Rejected e, afterPost w request s')
    end.

(** [extensions.length === 0] is the empty list; otherwise
    [extensions[0]] is its head. *)
Definition getExtensionInfo (publisher extension : string)
    (flags : list QueryFlag) : Promise S ExtensionInfo :=
  await results <- fetchExtensionData publisher extension flags;
  await extensions <- prop (results !! 0%nat) "extensions" extensions;
  match extensions with
  | [] => throw (ExtensionNotFoundError "Extension not found.")
  | first :: _ => ret first
  end.

(** The result is [undefined] when [versions[0]] is. *)
Definition getExtensionVersion (publisher extension : string)
    (version_opt : option string) : Promise S (option ExtensionVersion) :=
  await extensionInfo <- getExtensionInfo publisher extension [QF1; QF2];
  if isFalsy version_opt then ret (versions extensionInfo !! 0%nat)
  else
    let requested := default EmptyString version_opt in
    let foundVersion :=
      find (fun v => String.eqb (version v) requested)
           (versions extensionInfo) in
    match foundVersion with
    | None => throw (VersionNotFoundError "Version not found." requested)
    | Some v => ret (Some v)
    end.

Definition getLatestVersion (publisher extension : string)
    : Promise S string :=
  await latestVersion <- getExtensionVersion publisher extension None;
  prop latestVersion "version" version.

Definition getVsixDownloadUrl (publisher extension : string)
    : Promise S string :=
  await extensionVersion <- getExtensionVersion publisher extension None;
  await files <- prop extensionVersion "files" files;
  match find isVsixAsset files with
  | None => throw (VsixFileNotFoundError "VSIX file not found.")
  | Some vsixAsset => ret (source vsixAsset)
  end.

(** The response stream is piped into the writer; the promise resolves on
    the writer's [finish] and rejects on the writer's [error]. *)
Definition downloadFile (url destination : string) : Promise S string :=
  fun w =>
    match axios_get P url (remote w) with
    | (inl e, s') => (Rejected e, afterGet w url s')
    | (inr data, s') =>
        match createWriteStream P destination with
        | Some e => (Rejected e, afterGet w url s')
        | None =>
            (Resolved destination,
             afterWrite (afterGet w url s') destination data)
        end
    end.

(** The template literal that names the downloaded file. *)
Definition vsixFileName (publisher extension version : string) : string :=
  publisher +:+ "." +:+ extension +:+ "-" +:+ version +:+ ".vsix".

Definition downloadExtensionVsix (publisher extension : string)
    (outputDir_opt : option string) : Promise S string :=
  let outputDir := default "." outputDir_opt in
  await extensionVersion <- getExtensionVersion publisher extension None;
  await downloadUrl <- getVsixDownloadUrl publisher extension;
  await resolvedVersion <- prop extensionVersion "version" version;
  let filePath :=
    join P outputDir (vsixFileName publisher extension resolvedVersion) in
  downloadFile downloadUrl filePath.

End Service.

(* ================================================================== *)
(** ** The facade ([src/index.ts]) *)
(* ================================================================== *)

(** [VSCodeMarketplaceClient]: every member hands its arguments to the
    service instance. *)
Module VSCodeMarketplaceClient.
Section Facade.
Context {S : Type} (marketplaceService : Platform S).

Definition getExtensionInfo (publisher extension : string)
    (flags : list QueryFlag) : Promise S ExtensionInfo :=
  getExtensionInfo marketplaceService publisher extension flags.

Definition getExtensionVersion (publisher extension : string)
    (version_opt : option string) : Promise S (option ExtensionVersion) :=
  getExtensionVersion marketplaceService publisher extension version_opt.

Definition getLatestVersion (publisher extension : string)
    : Promise S string :=
  getLatestVersion marketplaceService publisher extension.

Definition getVsixDownloadUrl (publisher extension : string)
    : Promise S string :=
  getVsixDownloadUrl marketplaceService publisher extension.

Definition downloadExtensionVsix (publisher extension : string)
    (outputDir_opt : option string) : Promise S string :=
  let outputDir := default "." outputDir_opt in
  downloadExtensionVsix marketplaceService publisher extension
    (Some outputDir).
End Facade.
End VSCodeMarketplaceClient.

(* ================================================================== *)
(** ** Notions used by the statements *)
(* ================================================================== *)

(** The gallery answers a request the same way whatever its state. *)
Definition deterministicGallery {S : Type} (P : Platform S) : Prop :=
  forall request s1 s2,
    fst (axios_post P request s1) = fst (axios_post P request s2).

(** The download server answers a URL the same way whatever its state. *)
Definition deterministicDownload {S : Type} (P : Platform S) : Prop :=
  forall url s1 s2, fst (axios_get P url s1) = fst (axios_get P url s2).

(** The variant of [downloadExtensionVsix] that the design notes allow:
    the version is resolved once, and that one value serves both the asset
    lookup and the file name. *)
Definition downloadExtensionVsix_coalesced {S : Type} (P : Platform S)
    (publisher extension : string) (outputDir_opt : option string)
    : Promise S string :=
  let outputDir := default "." outputDir_opt in
  await extensionVersion <- getExtensionVersion P publisher extension None;
  await files <- prop extensionVersion "files" files;
  match find isVsixAsset files with
  | None => throw (VsixFileNotFoundError "VSIX file not found.")
  | Some vsixAsset =>
      await resolvedVersion <- prop extensionVersion "version" version;
      downloadFile P (source vsixAsset)
        (join P outputDir (vsixFileName publisher extension resolvedVersion))
  end.

(** In the state of [w], the gallery answers the query for
    [publisher.extension] with a first result set that has no extension. *)
Definition answersWithoutExtensions {S : Type} (P : Platform S)
    (publisher extension : string) (w : World S) : Prop :=
  forall flags, exists first rest s',
    axios_post P (queryRequest publisher extension flags) (remote w)
      = (inr (first :: rest), s')
    /\ extensions first = [].

(** In the state of [w], the gallery answers the query for
    [publisher.extension] with no result set at all. *)
Definition answersWithoutResults {S : Type} (P : Platform S)
    (publisher extension : string) (w : World S) : Prop :=
  forall flags, exists s',
    axios_post P (queryRequest publisher extension flags) (remote w)
      = (inr [], s').

(** What [getExtensionInfo] makes of each answer of the gallery. *)
Definition resolveExtension (response : JsError + list SearchResults)
    : Settled ExtensionInfo :=
  match response with
  | inl e => Rejected e
  | inr [] => Rejected (TypeError "extensions")
  | inr (first :: _) =>
      match extensions first with
      | [] => Rejected (ExtensionNotFoundError "Extension not found.")
      | info :: _ => Resolved info
      end
  end.

(** The bitwise OR of all the elements, [0] for none. *)
Definition orAll (l : list Z) : Z := foldr Z.lor 0 l.

(* ================================================================== *)
(** ** Sample galleries *)
(* ================================================================== *)

Module Sample.

Definition msPublisher : PublisherInfo :=
  {| publisherId := "5f5636e7";
     publisherName := "ms-vscode";
     publisher_displayName := "Microsoft";
     publisher_flags := "verified";
     domain := "https://microsoft.com";
     isDomainVerified := true |}.

Definition file (assetType source : string) : ExtensionFile :=
  {| assetType := assetType; source := source |}.

Definition release (version : string) (files : list ExtensionFile)
    : ExtensionVersion :=
  {| version := version;
     version_flags := "validated";
     version_lastUpdated := "2024-01-01T00:00:00Z";
     files := files;
     assetUri := "https://cdn.example/assets";
     fallbackAssetUri := "https://cdn.example/fallback" |}.

Definition cpptools (versions : list ExtensionVersion) : ExtensionInfo :=
  {| publisher := msPublisher;
     extensionId := "690b692e";
     extensionName := "cpptools";
     displayName := "C/C++";
     flags := "validated, public";
     lastUpdated := "2024-01-01T00:00:00Z";
     publishedDate := "2016-03-30T00:00:00Z";
     releaseDate := "2016-03-30T00:00:00Z";
     presentInConflictList := "0";
     shortDescription := "C/C++ IntelliSense";
     versions := versions;
     categories := ["Programming Languages"];
     tags := ["c"; "c++"];
     statistics := {[ "install" := 1000 ]};
     deploymentType := 0 |}.

Definition manifest : ExtensionFile :=
  file "Microsoft.VisualStudio.Code.Manifest" "https://cdn.example/m.json".
Definition vsixA : ExtensionFile :=
  file "Microsoft.VisualStudio.Services.VSIXPackage"
       "https://cdn.example/a.vsix".
Definition vsixB : ExtensionFile :=
  file "Microsoft.VisualStudio.Services.VSIXPackage"
       "https://cdn.example/b.vsix".

Definition v1_2_30 : ExtensionVersion :=
  release "1.2.30" [manifest; vsixA; vsixB].
Definition v1_2_0 : ExtensionVersion := release "1.2.0" [manifest].

Definition payloadBytes : list byte := [x50; x4b; x03; x04].

(** A gallery and a download server that always give the same answer. *)
Definition constant (results : list SearchResults) : Platform unit :=
  {| axios_post := fun _ s => (inr results, s);
     axios_get := fun _ s => (inr payloadBytes, s);
     createWriteStream := fun _ => None;
     join := fun dir name => dir +:+ "/" +:+ name |}.

(** One extension with two versions. *)
Definition found : Platform unit :=
  constant [ {| extensions := [cpptools [v1_2_30; v1_2_0]] |} ].

(** One result set without extensions. *)
Definition notFound : Platform unit :=
  constant [ {| extensions := [] |} ].

(** No result set at all. *)
Definition noResults : Platform unit := constant [].

(** One extension whose [versions] list is empty. *)
Definition noVersions : Platform unit :=
  constant [ {| extensions := [cpptools []] |} ].

Definition start : World unit :=
  {| remote := tt; posted := []; fetched := []; fs := ∅ |}.

End Sample.

(* ================================================================== *)
(** ** Further notions and scenarios *)
(* ================================================================== *)

(** In the state of [w], the request for [publisher.extension] is rejected
    by the HTTP layer with [e]. *)
Definition rejectsQuery {S : Type} (P : Platform S)
    (publisher extension : string) (e : JsError) (w : World S) : Prop :=
  forall flags, exists s',
    axios_post P (queryRequest publisher extension flags) (remote w)
      = (inl e, s').


Definition getFailure {S : Type} (P : Platform S) (e : JsError) : Prop :=
  exists url s, fst (axios_get P url s) = inl e.

Definition writeFailure {S : Type} (P : Platform S) (e : JsError) : Prop :=
  exists destination, createWriteStream P destination = Some e.

(** Both lists hold the same flags, in whatever order and number. *)
Definition sameFlags (flags flags' : list QueryFlag) : Prop :=
  forall f, In f flags <-> In f flags'.

Module Scenario.

Definition v2_0_0 : ExtensionVersion :=
  Sample.release "2.0.0" [Sample.vsixB].

Definition bytesA : list byte := [x50; x4b; x0a].
Definition bytesB : list byte := [x50; x4b; x0b].

(** A gallery that has answered [n] queries.  Version 2.0.0 is published
    right after the first answer.  The download server gives each URL its
    own bytes. *)
Definition republishing : Platform nat :=
  {| axios_post := fun _ n =>
       (inr [ {| extensions :=
                   [Sample.cpptools
                      (match n with
                       | O => [Sample.v1_2_30]
                       | _ => [v2_0_0; Sample.v1_2_30]
                       end)] |} ],
        Datatypes.S n);
     axios_get := fun url n =>
       (inr (if String.eqb url "https://cdn.example/b.vsix"
             then bytesB else bytesA), n);
     createWriteStream := fun _ => None;
     join := fun dir name => dir +:+ "/" +:+ name |}.

Definition fresh : World nat :=
  {| remote := O; posted := []; fetched := []; fs := ∅ |}.

(** No network. *)
Definition offline : Platform unit :=
  {| axios_post := fun _ s => (inl (AxiosError "ENOTFOUND"), s);
     axios_get := fun _ s => (inl (AxiosError "ENOTFOUND"), s);
     createWriteStream := fun _ => None;
     join := fun dir name => dir +:+ "/" +:+ name |}.

(** A disk that already holds an older download and another file. *)
Definition stale : World unit :=
  {| remote := tt; posted := []; fetched := [];
     fs := {[ "./ms-vscode.cpptools-1.2.30.vsix" := [x00];
              "notes.txt" := [x01] ]} |}.

(** Two extensions in the first result set, and a second result set. *)
Definition crowded : Platform unit :=
  Sample.constant
    [ {| extensions := [Sample.cpptools [Sample.v1_2_0];
                        Sample.cpptools [Sample.v1_2_30]] |};
      {| extensions := [] |} ].

(** The version string 1.2.0 occurs twice, with different files. *)
Definition v1_2_0_again : ExtensionVersion :=
  Sample.release "1.2.0" [Sample.vsixA].

Definition duplicated : Platform unit :=
  Sample.constant
    [ {| extensions :=
           [Sample.cpptools [Sample.v1_2_30; Sample.v1_2_0; v1_2_0_again]]
      |} ].


End Scenario.

(* ================================================================== *)
(** ** Flag encoding *)
(* ================================================================== *)

Section FlagEncoding.

Lemma toInt32_small (x : Z) : 0 <= x < 2 ^ 31 -> toInt32 x = x.
Proof.
  intros Hx. unfold toInt32.
  rewrite Z.mod_small; lia.
Qed.

Lemma flagValue_range (f : QueryFlag) : 0 <= flagValue f < 2 ^ 16.
Proof. destruct f; simpl; lia. Qed.

Lemma lor_range (a b : Z) :
  0 <= a < 2 ^ 16 -> 0 <= b < 2 ^ 16 -> 0 <= Z.lor a b < 2 ^ 16.
Proof.
  intros [Ha Ha'] [Hb Hb']. split.
  - apply Z.lor_nonneg; auto.
  - destruct (Z.eq_dec (Z.lor a b) 0) as [E | N]; [rewrite E; lia |].
    assert (Hpos : 0 < Z.lor a b).
    { assert (0 <= Z.lor a b) by (apply Z.lor_nonneg; auto). lia. }
    apply Z.log2_lt_pow2; [exact Hpos |].
    rewrite Z.log2_lor by assumption.
    apply Z.max_lub_lt.
    + destruct (Z.eq_dec a 0) as [-> | Na]; [simpl; lia |].
      apply Z.log2_lt_pow2; lia.
    + destruct (Z.eq_dec b 0) as [-> | Nb]; [simpl; lia |].
      apply Z.log2_lt_pow2; lia.
Qed.

Lemma bitor_small (a b : Z) :
  0 <= a < 2 ^ 16 -> 0 <= b < 2 ^ 16 -> bitor a b = Z.lor a b.
Proof.
  intros Ha Hb. unfold bitor.
  rewrite !toInt32_small; [reflexivity | lia | lia].
Qed.

Lemma orAll_range (l : list Z) :
  Forall (fun x => 0 <= x < 2 ^ 16) l -> 0 <= orAll l < 2 ^ 16.
Proof.
  induction 1 as [| x l Hx Hl IH]; simpl.
  - lia.
  - apply lor_range; assumption.
Qed.

Lemma reduce_from (l : list Z) (acc : Z) :
  Forall (fun x => 0 <= x < 2 ^ 16) l -> 0 <= acc < 2 ^ 16 ->
  fold_left (fun acc flag => bitor acc flag) l acc = Z.lor acc (orAll l).
Proof.
  intros Hl. revert acc.
  induction Hl as [| x l Hx Hl IH]; intros acc Hacc; simpl.
  - now rewrite Z.lor_0_r.
  - rewrite IH.
    + rewrite bitor_small by assumption. now rewrite Z.lor_assoc.
    + rewrite bitor_small by assumption. now apply lor_range.
Qed.

Lemma flagValues_range (flags : list QueryFlag) :
  Forall (fun x => 0 <= x < 2 ^ 16) (map flagValue flags).
Proof.
  induction flags as [| f flags IH]; constructor; auto using flagValue_range.
Qed.

Lemma encodeFlags_orAll (flags : list QueryFlag) :
  encodeFlags (map flagValue flags) = orAll (map flagValue flags).
Proof.
  unfold encodeFlags.
  rewrite reduce_from; [reflexivity | apply flagValues_range | lia].
Qed.

Lemma orAll_Permutation (l l' : list Z) :
  Permutation l l' -> orAll l = orAll l'.
Proof.
  induction 1 as [| x l l' _ IH | x y l | l l' l'' _ IH1 _ IH2]; simpl.
  - reflexivity.
  - now rewrite IH.
  - rewrite !Z.lor_assoc. now rewrite (Z.lor_comm y x).
  - now rewrite IH1.
Qed.

End FlagEncoding.

(** C6.  The [flags] field of the query payload is the bitwise OR of the
    flag values that were passed, it is not negative, and it is the same
    for every reordering of the flags; the body that [fetchExtensionData]
    posts carries exactly that payload.  In particular the encoding of no
    flag is 0, of [1, 2] is 3, of [256] is 256 and of [1, 2, 256] is 259. *)
Theorem flag_encoding_is_bitwise_or
    {S : Type} (P : Platform S) (w : World S)
    (publisher extension : string) (flags flags' : list QueryFlag) :
  Permutation flags flags' ->
  payload_flags (queryPayload publisher extension flags)
    = orAll (map flagValue flags)
  /\ 0 <= payload_flags (queryPayload publisher extension flags)
  /\ payload_flags (queryPayload publisher extension flags)
     = payload_flags (queryPayload publisher extension flags')
  /\ posted (snd (fetchExtensionData P publisher extension flags w))
     = posted w ++ [queryRequest publisher extension flags]
  /\ encodeFlags (map flagValue []) = 0
  /\ encodeFlags (map flagValue [QF1; QF2]) = 3
  /\ encodeFlags (map flagValue [QF256]) = 256
  /\ encodeFlags (map flagValue [QF1; QF2; QF256]) = 259.
Proof.
  intros Hperm. simpl payload_flags.
  rewrite !encodeFlags_orAll.
  repeat split; try reflexivity.
  - apply orAll_range, flagValues_range.
  - apply orAll_Permutation, Permutation_map, Hperm.
  - unfold fetchExtensionData.
    destruct (axios_post P _ (remote w)) as [[e | results] s']; reflexivity.
Qed.

Lemma flag_encoding_is_bitwise_or_witness :
  Permutation [QF1; QF2; QF256] [QF256; QF1; QF2]
  /\ payload_flags (queryPayload "ms-vscode" "cpptools" [QF1; QF2; QF256])
     = payload_flags (queryPayload "ms-vscode" "cpptools" [QF256; QF1; QF2]).
Proof.
  assert (Hperm : Permutation [QF1; QF2; QF256] [QF256; QF1; QF2]).
  { change [QF1; QF2; QF256] with ([QF1; QF2] ++ [QF256]).
    apply Permutation_app_comm. }
  split; [exact Hperm |].
  apply (flag_encoding_is_bitwise_or Sample.found Sample.start
           "ms-vscode" "cpptools" _ _ Hperm).
Defined.

(* ================================================================== *)
(** ** How the methods step *)
(* ================================================================== *)

Section Steps.
Context {S : Type} (P : Platform S).

Lemma bind_resolved {A B : Type} (m : Promise S A) (k : A -> Promise S B)
    (w w' : World S) (a : A) :
  m w = (Resolved a, w') -> bind m k w = k a w'.
Proof. intros H. unfold bind. now rewrite H. Qed.

Lemma bind_rejected {A B : Type} (m : Promise S A) (k : A -> Promise S B)
    (w w' : World S) (e : JsError) :
  m w = (Rejected e, w') -> bind m k w = (Rejected e, w').
Proof. intros H. unfold bind. now rewrite H. Qed.

Lemma getExtensionInfo_post (publisher extension : string)
    (flags : list QueryFlag) (w : World S) :
  getExtensionInfo P publisher extension flags w
  = (resolveExtension
       (fst (axios_post P (queryRequest publisher extension flags)
               (remote w))),
     afterPost w (queryRequest publisher extension flags)
       (snd (axios_post P (queryRequest publisher extension flags)
               (remote w)))).
Proof.
  unfold getExtensionInfo, bind, fetchExtensionData.
  destruct (axios_post P _ (remote w)) as [[e | results] s']; simpl.
  - reflexivity.
  - destruct results as [| first rest]; simpl; [reflexivity |].
    destruct (extensions first); reflexivity.
Qed.

Lemma getExtensionInfo_zero (publisher extension : string)
    (flags : list QueryFlag) (w : World S) :
  answersWithoutExtensions P publisher extension w ->
  exists w',
    getExtensionInfo P publisher extension flags w
    = (Rejected (ExtensionNotFoundError "Extension not found."), w').
Proof.
  intros H. destruct (H flags) as (first & rest & s' & Hpost & Hnil).
  rewrite getExtensionInfo_post, Hpost. simpl. rewrite Hnil.
  eexists. reflexivity.
Qed.

Lemma getExtensionVersion_zero (publisher extension : string)
    (version_opt : option string) (w : World S) :
  answersWithoutExtensions P publisher extension w ->
  exists w',
    getExtensionVersion P publisher extension version_opt w
    = (Rejected (ExtensionNotFoundError "Extension not found."), w').
Proof.
  intros H.
  destruct (getExtensionInfo_zero publisher extension [QF1; QF2] w H)
    as [w' Hinfo].
  exists w'. unfold getExtensionVersion.
  now apply bind_rejected.
Qed.

(** With the version omitted, [getExtensionVersion] is [getExtensionInfo]
    with the flags [1, 2], followed by [versions[0]]. *)
Lemma getExtensionVersion_latest (publisher extension : string)
    (w : World S) :
  getExtensionVersion P publisher extension None w
  = (match fst (getExtensionInfo P publisher extension [QF1; QF2] w) with
     | Resolved extensionInfo => Resolved (versions extensionInfo !! 0%nat)
     | Rejected e => Rejected e
     end,
     snd (getExtensionInfo P publisher extension [QF1; QF2] w)).
Proof.
  unfold getExtensionVersion, bind.
  destruct (getExtensionInfo P publisher extension [QF1; QF2] w)
    as [[info | e] w']; reflexivity.
Qed.

End Steps.

(* ================================================================== *)
(** ** Extension resolution *)
(* ================================================================== *)

(** C1.  When the gallery answers with a first result set that holds no
    extension, [getExtensionInfo] rejects with [ExtensionNotFoundError],
    and so do [getExtensionVersion], [getLatestVersion],
    [getVsixDownloadUrl] and [downloadExtensionVsix] of the facade; that
    error is an instance of [VSCodeExtensionError]. *)
Theorem zero_extensions_reject_ExtensionNotFound
    {S : Type} (P : Platform S) (publisher extension : string)
    (w : World S) :
  answersWithoutExtensions P publisher extension w ->
  let notFound := ExtensionNotFoundError "Extension not found." in
  (forall flags,
      fst (VSCodeMarketplaceClient.getExtensionInfo P publisher extension
             flags w) = Rejected notFound)
  /\ (forall version_opt,
      fst (VSCodeMarketplaceClient.getExtensionVersion P publisher extension
             version_opt w) = Rejected notFound)
  /\ fst (VSCodeMarketplaceClient.getLatestVersion P publisher extension w)
     = Rejected notFound
  /\ fst (VSCodeMarketplaceClient.getVsixDownloadUrl P publisher extension w)
     = Rejected notFound
  /\ (forall outputDir_opt,
      fst (VSCodeMarketplaceClient.downloadExtensionVsix P publisher
             extension outputDir_opt w) = Rejected notFound)
  /\ isExtensionNotFound notFound = true
  /\ isVSCodeExtensionError notFound = true.
Proof.
  intros H notFound.
  unfold VSCodeMarketplaceClient.getExtensionInfo,
    VSCodeMarketplaceClient.getExtensionVersion,
    VSCodeMarketplaceClient.getLatestVersion,
    VSCodeMarketplaceClient.getVsixDownloadUrl,
    VSCodeMarketplaceClient.downloadExtensionVsix.
  repeat split.
  - intros flags.
    destruct (getExtensionInfo_zero P publisher extension flags w H)
      as [w' ->]. reflexivity.
  - intros version_opt.
    destruct (getExtensionVersion_zero P publisher extension version_opt w H)
      as [w' ->]. reflexivity.
  - destruct (getExtensionVersion_zero P publisher extension None w H)
      as [w' Hv].
    unfold getLatestVersion. now rewrite (bind_rejected _ _ _ _ _ Hv).
  - destruct (getExtensionVersion_zero P publisher extension None w H)
      as [w' Hv].
    unfold getVsixDownloadUrl. now rewrite (bind_rejected _ _ _ _ _ Hv).
  - intros outputDir_opt.
    destruct (getExtensionVersion_zero P publisher extension None w H)
      as [w' Hv].
    unfold downloadExtensionVsix. cbv zeta.
    now rewrite (bind_rejected _ _ _ _ _ Hv).
Qed.

Lemma zero_extensions_reject_ExtensionNotFound_witness :
  answersWithoutExtensions Sample.notFound "nonexistent" "invalid-extension"
    Sample.start
  /\ fst (VSCodeMarketplaceClient.downloadExtensionVsix Sample.notFound
            "nonexistent" "invalid-extension" None Sample.start)
     = Rejected (ExtensionNotFoundError "Extension not found.").
Proof.
  assert (H : answersWithoutExtensions Sample.notFound "nonexistent"
                "invalid-extension" Sample.start).
  { intros flags. exists {| extensions := [] |}, [], tt.
    split; reflexivity. }
  split; [exact H |].
  apply (zero_extensions_reject_ExtensionNotFound Sample.notFound
           "nonexistent" "invalid-extension" Sample.start H).
Defined.

(** C9.  When the gallery answers with no result set at all,
    [getExtensionInfo] reads [extensions] of [undefined]: it rejects with a
    [TypeError], which is neither [ExtensionNotFoundError] nor any other
    [VSCodeExtensionError]. *)
Theorem empty_results_reject_TypeError
    {S : Type} (P : Platform S) (publisher extension : string)
    (flags : list QueryFlag) (w : World S) :
  answersWithoutResults P publisher extension w ->
  fst (getExtensionInfo P publisher extension flags w)
    = Rejected (TypeError "extensions")
  /\ fst (VSCodeMarketplaceClient.getExtensionInfo P publisher extension
            flags w)
     = Rejected (TypeError "extensions")
  /\ isExtensionNotFound (TypeError "extensions") = false
  /\ isVSCodeExtensionError (TypeError "extensions") = false.
Proof.
  intros H. destruct (H flags) as [s' Hpost].
  unfold VSCodeMarketplaceClient.getExtensionInfo.
  rewrite getExtensionInfo_post, Hpost. simpl. auto.
Qed.

Lemma empty_results_reject_TypeError_witness :
  answersWithoutResults Sample.noResults "ms-vscode" "cpptools" Sample.start
  /\ fst (getExtensionInfo Sample.noResults "ms-vscode" "cpptools"
            [QF1; QF256] Sample.start)
     = Rejected (TypeError "extensions").
Proof.
  assert (H : answersWithoutResults Sample.noResults "ms-vscode" "cpptools"
                Sample.start).
  { intros flags. exists tt. reflexivity. }
  split; [exact H |].
  apply (empty_results_reject_TypeError Sample.noResults "ms-vscode"
           "cpptools" [QF1; QF256] Sample.start H).
Defined.

(* ================================================================== *)
(** ** Version resolution *)
(* ================================================================== *)

(** C2.  With the version argument omitted, [getExtensionVersion] obtains
    the extension with the flags [1, 2], which the payload carries as 3,
    through one query, and resolves with [versions[0]] of the extension it
    obtained, whatever the order of the list. *)
Theorem version_omitted_returns_versions_0
    {S : Type} (P : Platform S) (publisher extension : string)
    (w w' : World S) (extensionInfo : ExtensionInfo) :
  getExtensionInfo P publisher extension [QF1; QF2] w
    = (Resolved extensionInfo, w') ->
  getExtensionVersion P publisher extension None w
    = (Resolved (versions extensionInfo !! 0%nat), w')
  /\ VSCodeMarketplaceClient.getExtensionVersion P publisher extension None w
     = (Resolved (versions extensionInfo !! 0%nat), w')
  /\ getExtensionVersion P publisher extension None w
     = bind (getExtensionInfo P publisher extension [QF1; QF2])
         (fun info => ret (versions info !! 0%nat)) w
  /\ posted w' = posted w ++ [queryRequest publisher extension [QF1; QF2]]
  /\ payload_flags (post_body (queryRequest publisher extension [QF1; QF2]))
     = 3.
Proof.
  intros Hinfo.
  assert (Hv : getExtensionVersion P publisher extension None w
               = (Resolved (versions extensionInfo !! 0%nat), w')).
  { rewrite getExtensionVersion_latest, Hinfo. reflexivity. }
  repeat split.
  - exact Hv.
  - exact Hv.
  - rewrite getExtensionInfo_post in Hinfo.
    injection Hinfo as _ Hw. now subst w'.
Qed.

Lemma version_omitted_returns_versions_0_witness :
  getExtensionVersion Sample.found "ms-vscode" "cpptools" None Sample.start
  = (Resolved (Some Sample.v1_2_30),
     afterPost Sample.start (queryRequest "ms-vscode" "cpptools" [QF1; QF2])
       tt).
Proof.
  refine (proj1 (version_omitted_returns_versions_0 Sample.found "ms-vscode"
                   "cpptools" Sample.start _
                   (Sample.cpptools [Sample.v1_2_30; Sample.v1_2_0]) _)).
  reflexivity.
Defined.

Section VersionLookup.
Context {S : Type} (P : Platform S).

Lemma find_unique {A : Type} (f : A -> bool) (l : list A) (x : A) :
  In x l -> f x = true ->
  (forall y, In y l -> f y = true -> y = x) ->
  find f l = Some x.
Proof.
  intros Hin Hfx Huniq.
  destruct (find f l) as [y |] eqn:Hfind.
  - apply find_some in Hfind as [Hy Hfy].
    now rewrite (Huniq y Hy Hfy).
  - now rewrite (find_none f l Hfind x Hin) in Hfx.
Qed.

Lemma find_absent {A : Type} (f : A -> bool) (l : list A) :
  (forall y, In y l -> f y = false) -> find f l = None.
Proof.
  intros Hall. induction l as [| a l IH]; simpl; [reflexivity |].
  rewrite (Hall a (or_introl eq_refl)).
  apply IH. intros y Hy. apply Hall. now right.
Qed.

Lemma isFalsy_nonempty (requested : string) :
  requested <> EmptyString -> isFalsy (Some requested) = false.
Proof. destruct requested; [congruence | reflexivity]. Qed.

(** With a non-empty version argument, [getExtensionVersion] is the
    [find] over the versions of the extension it obtained. *)
Lemma getExtensionVersion_find (publisher extension requested : string)
    (w w' : World S) (extensionInfo : ExtensionInfo) :
  requested <> EmptyString ->
  getExtensionInfo P publisher extension [QF1; QF2] w
    = (Resolved extensionInfo, w') ->
  getExtensionVersion P publisher extension (Some requested) w
  = (match find (fun v => String.eqb (version v) requested)
             (versions extensionInfo) with
     | Some v => Resolved (Some v)
     | None => Rejected (VersionNotFoundError "Version not found." requested)
     end, w').
Proof.
  intros Hne Hinfo. unfold getExtensionVersion.
  rewrite (bind_resolved _ _ _ _ _ Hinfo).
  rewrite (isFalsy_nonempty _ Hne). simpl.
  destruct (find _ (versions extensionInfo)); reflexivity.
Qed.

(** Whatever the publisher and the extension, the first argument of a
    [VersionNotFoundError] that [getExtensionVersion] throws is the literal
    of the [throw] statement. *)
Lemma VersionNotFoundError_first_argument (publisher extension : string)
    (version_opt : option string) (w : World S) (id ver : string) :
  fst (getExtensionVersion P publisher extension version_opt w)
    = Rejected (VersionNotFoundError id ver) ->
  (forall s', fst (axios_post P (queryRequest publisher extension [QF1; QF2])
                     s') <> inl (VersionNotFoundError id ver)) ->
  id = "Version not found.".
Proof.
  unfold getExtensionVersion, bind.
  rewrite getExtensionInfo_post.
  intros H Hgallery. specialize (Hgallery (remote w)).
  destruct (axios_post P _ (remote w)) as [[e | results] s']; simpl in *.
  - congruence.
  - destruct results as [| first rest]; simpl in H; [discriminate |].
    destruct (extensions first) as [| info others]; [discriminate |].
    destruct (isFalsy version_opt); simpl in H; [discriminate |].
    destruct (find _ (versions info)); simpl in H; congruence.
Qed.

End VersionLookup.

(** C3, as the code has it.  With a non-empty version argument: when
    exactly one entry of the versions list has that version string,
    [getExtensionVersion] resolves with that entry; when no entry has it,
    [getExtensionVersion] rejects with a [VersionNotFoundError] that
    carries the requested version string.  Equality is equality of
    strings: against a gallery that holds only 1.2.30 and 1.2.0, a request
    for 1.2.3 is rejected with that error. *)
Theorem version_given_exact_match
    {S : Type} (P : Platform S) (publisher extension requested : string)
    (w w' : World S) (extensionInfo : ExtensionInfo) :
  requested <> EmptyString ->
  getExtensionInfo P publisher extension [QF1; QF2] w
    = (Resolved extensionInfo, w') ->
  (forall v,
      In v (versions extensionInfo) -> version v = requested ->
      (forall u, In u (versions extensionInfo) -> version u = requested ->
                 u = v) ->
      getExtensionVersion P publisher extension (Some requested) w
        = (Resolved (Some v), w'))
  /\ ((forall v, In v (versions extensionInfo) -> version v <> requested) ->
      exists id,
        getExtensionVersion P publisher extension (Some requested) w
          = (Rejected (VersionNotFoundError id requested), w')
        /\ isVSCodeExtensionError (VersionNotFoundError id requested) = true)
  /\ (exists id,
        fst (getExtensionVersion Sample.found "ms-vscode" "cpptools"
               (Some "1.2.3") Sample.start)
        = Rejected (VersionNotFoundError id "1.2.3")).
Proof.
  intros Hne Hinfo.
  pose proof (getExtensionVersion_find P publisher extension requested
                w w' extensionInfo Hne Hinfo) as Hfind.
  split; [| split].
  - intros v Hin Hv Huniq. rewrite Hfind.
    rewrite (find_unique _ _ v Hin); [reflexivity | |].
    + now apply String.eqb_eq.
    + intros u Hu E. apply Huniq; [exact Hu | now apply String.eqb_eq].
  - intros Hnone. exists "Version not found.". rewrite Hfind.
    rewrite find_absent; [split; reflexivity |].
    intros v Hv. apply String.eqb_neq. now apply Hnone.
  - eexists. reflexivity.
Qed.

Lemma version_given_exact_match_witness :
  getExtensionVersion Sample.found "ms-vscode" "cpptools" (Some "1.2.0")
    Sample.start
  = (Resolved (Some Sample.v1_2_0),
     afterPost Sample.start (queryRequest "ms-vscode" "cpptools" [QF1; QF2])
       tt).
Proof.
  assert (Hne : "1.2.0" <> EmptyString) by discriminate.
  refine (proj1 (version_given_exact_match Sample.found "ms-vscode"
                   "cpptools" "1.2.0" Sample.start _
                   (Sample.cpptools [Sample.v1_2_30; Sample.v1_2_0])
                   Hne eq_refl) Sample.v1_2_0 _ eq_refl _).
  - simpl. auto.
  - intros u [<- | [<- | []]] Hu; [discriminate Hu | reflexivity].
Defined.

(** C3, as it is stated, fails.  The gallery holds the versions 1.2.30 and
    1.2.0 of the extension.  Asked for the empty version string, which no
    entry has, [getExtensionVersion] does not reject: it resolves with
    [versions[0]].  Asked for 1.2.3, it rejects with an error whose first
    argument is the literal of the [throw] statement, which is neither the
    identifier that was queried nor a field of the extension. *)
Lemma version_given_counterexample :
  let info := Sample.cpptools [Sample.v1_2_30; Sample.v1_2_0] in
  fst (getExtensionInfo Sample.found "ms-vscode" "cpptools" [QF1; QF2]
         Sample.start) = Resolved info
  /\ (forall v, In v (versions info) -> version v <> EmptyString)
  /\ fst (getExtensionVersion Sample.found "ms-vscode" "cpptools"
            (Some EmptyString) Sample.start)
     = Resolved (Some Sample.v1_2_30)
  /\ ~ (exists id ver,
          fst (getExtensionVersion Sample.found "ms-vscode" "cpptools"
                 (Some EmptyString) Sample.start)
          = Rejected (VersionNotFoundError id ver))
  /\ fst (getExtensionVersion Sample.found "ms-vscode" "cpptools"
            (Some "1.2.3") Sample.start)
     = Rejected (VersionNotFoundError "Version not found." "1.2.3")
  /\ "Version not found." <> "ms-vscode.cpptools"
  /\ "Version not found." <> extensionId info
  /\ "Version not found." <> extensionName info.
Proof.
  cbv zeta. repeat split; try reflexivity; try discriminate.
  - intros v [<- | [<- | []]]; discriminate.
  - intros (id & ver & H). discriminate H.
Qed.

(** C7 at an extension without versions.  The gallery holds the extension
    with an empty [versions] list.  With the version omitted,
    [getExtensionVersion] resolves with [undefined]; [getLatestVersion] and
    [getVsixDownloadUrl] then read a property of [undefined] and reject
    with a [TypeError], which is not a [VSCodeExtensionError]. *)
Theorem empty_versions_resolve_undefined :
  fst (getExtensionInfo Sample.noVersions "ms-vscode" "cpptools" [QF1; QF2]
         Sample.start) = Resolved (Sample.cpptools [])
  /\ fst (getExtensionVersion Sample.noVersions "ms-vscode" "cpptools" None
            Sample.start) = Resolved None
  /\ fst (VSCodeMarketplaceClient.getExtensionVersion Sample.noVersions
            "ms-vscode" "cpptools" None Sample.start) = Resolved None
  /\ fst (getLatestVersion Sample.noVersions "ms-vscode" "cpptools"
            Sample.start) = Rejected (TypeError "version")
  /\ fst (getVsixDownloadUrl Sample.noVersions "ms-vscode" "cpptools"
            Sample.start) = Rejected (TypeError "files")
  /\ isVSCodeExtensionError (TypeError "version") = false
  /\ isVSCodeExtensionError (TypeError "files") = false.
Proof. repeat split; reflexivity. Qed.

(* ================================================================== *)
(** ** Asset location *)
(* ================================================================== *)

Section AssetLookup.
Context {S : Type} (P : Platform S).

Lemma isVsixAsset_true (file : ExtensionFile) :
  isVsixAsset file = true <-> assetType file = VSIXPackage.
Proof. unfold isVsixAsset. apply String.eqb_eq. Qed.

Lemma isVsixAsset_false (file : ExtensionFile) :
  isVsixAsset file = false <-> assetType file <> VSIXPackage.
Proof. unfold isVsixAsset. apply String.eqb_neq. Qed.

Lemma find_first {A : Type} (f : A -> bool) (before after : list A)
    (x : A) :
  (forall y, In y before -> f y = false) -> f x = true ->
  find f (before ++ x :: after) = Some x.
Proof.
  intros Hbefore Hx. induction before as [| b before IH]; simpl.
  - now rewrite Hx.
  - rewrite (Hbefore b (or_introl eq_refl)).
    apply IH. intros y Hy. apply Hbefore. now right.
Qed.

(** Once the latest version is there, [getVsixDownloadUrl] is the [find]
    over its files. *)
Lemma getVsixDownloadUrl_find (publisher extension : string)
    (w w' : World S) (extensionVersion : ExtensionVersion) :
  getExtensionVersion P publisher extension None w
    = (Resolved (Some extensionVersion), w') ->
  getVsixDownloadUrl P publisher extension w
  = (match find isVsixAsset (files extensionVersion) with
     | Some vsixAsset => Resolved (source vsixAsset)
     | None => Rejected (VsixFileNotFoundError "VSIX file not found.")
     end, w').
Proof.
  intros Hv. unfold getVsixDownloadUrl.
  rewrite (bind_resolved _ _ _ _ _ Hv). simpl.
  unfold bind, ret. simpl.
  destruct (find isVsixAsset (files extensionVersion)); reflexivity.
Qed.

End AssetLookup.

(** C4.  Once the latest version is resolved: when one entry of its files
    has the asset type of the VSIX package, [getVsixDownloadUrl] resolves
    with the [source] of that entry; when no entry has it,
    [getVsixDownloadUrl] rejects with [VsixFileNotFoundError]; and it never
    resolves with anything but the [source] of an entry with that asset
    type. *)
Theorem vsix_url_is_source_of_package_entry
    {S : Type} (P : Platform S) (publisher extension : string)
    (w w' : World S) (extensionVersion : ExtensionVersion) :
  getExtensionVersion P publisher extension None w
    = (Resolved (Some extensionVersion), w') ->
  (forall file,
      In file (files extensionVersion) -> assetType file = VSIXPackage ->
      (forall other, In other (files extensionVersion) ->
                     assetType other = VSIXPackage -> other = file) ->
      getVsixDownloadUrl P publisher extension w
        = (Resolved (source file), w'))
  /\ ((forall file, In file (files extensionVersion) ->
                    assetType file <> VSIXPackage) ->
      getVsixDownloadUrl P publisher extension w
        = (Rejected (VsixFileNotFoundError "VSIX file not found."), w')
      /\ isVSCodeExtensionError
           (VsixFileNotFoundError "VSIX file not found.") = true)
  /\ (forall url,
      fst (getVsixDownloadUrl P publisher extension w) = Resolved url ->
      exists file,
        In file (files extensionVersion)
        /\ assetType file = VSIXPackage /\ source file = url)
  /\ VSCodeMarketplaceClient.getVsixDownloadUrl P publisher extension w
     = getVsixDownloadUrl P publisher extension w.
Proof.
  intros Hv.
  rewrite (getVsixDownloadUrl_find P _ _ _ _ _ Hv).
  split; [| split; [| split]].
  - intros file Hin Htype Huniq.
    rewrite (find_unique isVsixAsset _ file Hin); [reflexivity | |].
    + now apply isVsixAsset_true.
    + intros other Ho E. apply Huniq; [exact Ho | now apply isVsixAsset_true].
  - intros Hnone. rewrite find_absent; [split; reflexivity |].
    intros file Hin. apply isVsixAsset_false. now apply Hnone.
  - intros url Hurl.
    destruct (find isVsixAsset (files extensionVersion)) as [file |] eqn:Hf;
      simpl in Hurl; [| discriminate].
    apply find_some in Hf as [Hin Htype].
    exists file. repeat split; [exact Hin | now apply isVsixAsset_true |].
    congruence.
  - unfold VSCodeMarketplaceClient.getVsixDownloadUrl.
    apply (getVsixDownloadUrl_find P _ _ _ _ _ Hv).
Qed.

Lemma vsix_url_is_source_of_package_entry_witness :
  getVsixDownloadUrl
    (Sample.constant
       [ {| extensions :=
              [Sample.cpptools
                 [Sample.release "2.0.0" [Sample.manifest; Sample.vsixB]]]
         |} ])
    "ms-vscode" "cpptools" Sample.start
  = (Resolved "https://cdn.example/b.vsix",
     afterPost Sample.start (queryRequest "ms-vscode" "cpptools" [QF1; QF2])
       tt).
Proof.
  refine (proj1 (vsix_url_is_source_of_package_entry
                   (Sample.constant
                      [ {| extensions :=
                             [Sample.cpptools
                                [Sample.release "2.0.0"
                                   [Sample.manifest; Sample.vsixB]]] |} ])
                   "ms-vscode" "cpptools" Sample.start _
                   (Sample.release "2.0.0" [Sample.manifest; Sample.vsixB])
                   eq_refl) Sample.vsixB _ eq_refl _).
  - simpl. auto.
  - intros other [<- | [<- | []]] Ho; [discriminate Ho | reflexivity].
Defined.

(** C10.  Once the latest version is resolved: [getVsixDownloadUrl]
    resolves with the [source] of the first entry, in the order of the
    files list, that has the asset type of the VSIX package, however many
    entries with that asset type come after it. *)
Theorem first_package_entry_wins
    {S : Type} (P : Platform S) (publisher extension : string)
    (w w' : World S) (extensionVersion : ExtensionVersion)
    (before after : list ExtensionFile) (file : ExtensionFile) :
  getExtensionVersion P publisher extension None w
    = (Resolved (Some extensionVersion), w') ->
  files extensionVersion = before ++ file :: after ->
  (forall earlier, In earlier before -> assetType earlier <> VSIXPackage) ->
  assetType file = VSIXPackage ->
  getVsixDownloadUrl P publisher extension w = (Resolved (source file), w').
Proof.
  intros Hv Hfiles Hbefore Htype.
  rewrite (getVsixDownloadUrl_find P _ _ _ _ _ Hv), Hfiles.
  rewrite find_first; [reflexivity | | now apply isVsixAsset_true].
  intros earlier Hin. apply isVsixAsset_false. now apply Hbefore.
Qed.

Lemma first_package_entry_wins_witness :
  getVsixDownloadUrl Sample.found "ms-vscode" "cpptools" Sample.start
  = (Resolved "https://cdn.example/a.vsix",
     afterPost Sample.start (queryRequest "ms-vscode" "cpptools" [QF1; QF2])
       tt).
Proof.
  refine (first_package_entry_wins Sample.found "ms-vscode" "cpptools"
            Sample.start _ Sample.v1_2_30 [Sample.manifest] [Sample.vsixB]
            Sample.vsixA eq_refl eq_refl _ eq_refl).
  intros earlier [<- | []]. discriminate.
Defined.

(* ================================================================== *)
(** ** Download *)
(* ================================================================== *)

Section Download.
Context {S : Type} (P : Platform S).

(** A resolved [downloadFile] resolves with its destination, after the
    bytes the server gave for the URL were written there. *)
Lemma downloadFile_resolved (url destination path : string)
    (w w' : World S) :
  downloadFile P url destination w = (Resolved path, w') ->
  exists data s',
    axios_get P url (remote w) = (inr data, s')
    /\ path = destination
    /\ w' = afterWrite (afterGet w url s') destination data.
Proof.
  unfold downloadFile.
  destruct (axios_get P url (remote w)) as [[e | data] s']; [discriminate |].
  destruct (createWriteStream P destination); [discriminate |].
  intros H. injection H as <- <-. exists data, s'. auto.
Qed.

(** What the latest version is, read off the answer of the gallery. *)
Lemma getExtensionVersion_post (publisher extension : string)
    (w : World S) :
  getExtensionVersion P publisher extension None w
  = (match resolveExtension
             (fst (axios_post P (queryRequest publisher extension [QF1; QF2])
                     (remote w))) with
     | Resolved extensionInfo => Resolved (versions extensionInfo !! 0%nat)
     | Rejected e => Rejected e
     end,
     afterPost w (queryRequest publisher extension [QF1; QF2])
       (snd (axios_post P (queryRequest publisher extension [QF1; QF2])
               (remote w)))).
Proof.
  rewrite getExtensionVersion_latest, getExtensionInfo_post. reflexivity.
Qed.

Lemma default_default (outputDir_opt : option string) :
  default "." (Some (default "." outputDir_opt)) = default "." outputDir_opt.
Proof. reflexivity. Qed.

End Download.

(** C5.  When [downloadExtensionVsix] resolves, the path it resolves with
    is [join] of the output directory, [.] when none is given, and the name
    [<publisher>.<extension>-<version>.vsix], where the version is the
    version string of [versions[0]] of the extension that was obtained;
    and the file at that path holds the bytes that the server gave for the
    URL that [getVsixDownloadUrl] resolved with. *)
Theorem download_path_and_content
    {S : Type} (P : Platform S) (publisher extension : string)
    (outputDir_opt : option string) (w w' : World S) (path : string) :
  downloadExtensionVsix P publisher extension outputDir_opt w
    = (Resolved path, w') ->
  exists extensionInfo latest downloadUrl data w1 w2 s3,
    getExtensionInfo P publisher extension [QF1; QF2] w
      = (Resolved extensionInfo, w1)
    /\ versions extensionInfo !! 0%nat = Some latest
    /\ getVsixDownloadUrl P publisher extension w1 = (Resolved downloadUrl, w2)
    /\ axios_get P downloadUrl (remote w2) = (inr data, s3)
    /\ path = join P (default "." outputDir_opt)
                (publisher +:+ "." +:+ extension +:+ "-" +:+ version latest
                   +:+ ".vsix")
    /\ fs w' !! path = Some data
    /\ VSCodeMarketplaceClient.downloadExtensionVsix P publisher extension
         outputDir_opt w = (Resolved path, w').
Proof.
  intros Hdl.
  assert (Hfacade : VSCodeMarketplaceClient.downloadExtensionVsix P publisher
                      extension outputDir_opt w = (Resolved path, w')).
  { unfold VSCodeMarketplaceClient.downloadExtensionVsix. cbv zeta.
    unfold downloadExtensionVsix in *. now rewrite default_default. }
  unfold downloadExtensionVsix in Hdl. cbv zeta in Hdl.
  unfold bind at 1 in Hdl.
  rewrite getExtensionVersion_latest in Hdl.
  destruct (getExtensionInfo P publisher extension [QF1; QF2] w)
    as [[extensionInfo | e] w1] eqn:Hinfo; simpl in Hdl; [| discriminate].
  unfold bind at 1 in Hdl.
  destruct (getVsixDownloadUrl P publisher extension w1)
    as [[downloadUrl | e] w2] eqn:Hurl; [| discriminate].
  destruct (versions extensionInfo !! 0%nat) as [latest |] eqn:Hlatest;
    [| discriminate].
  simpl in Hdl. unfold bind, ret in Hdl.
  apply downloadFile_resolved in Hdl as (data & s3 & Hget & -> & ->).
  exists extensionInfo, latest, downloadUrl, data, w1, w2, s3.
  repeat split; try assumption; try reflexivity.
  simpl. apply lookup_insert_eq.
Qed.

Lemma download_path_and_content_witness :
  let settled :=
    downloadExtensionVsix Sample.found "ms-vscode" "cpptools" None
      Sample.start in
  fst settled = Resolved "./ms-vscode.cpptools-1.2.30.vsix"
  /\ fs (snd settled) !! "./ms-vscode.cpptools-1.2.30.vsix"
     = Some Sample.payloadBytes.
Proof.
  cbv zeta. split; [reflexivity |].
  destruct (download_path_and_content Sample.found "ms-vscode" "cpptools"
              None Sample.start
              (snd (downloadExtensionVsix Sample.found "ms-vscode"
                      "cpptools" None Sample.start))
              "./ms-vscode.cpptools-1.2.30.vsix" eq_refl)
    as (info & latest & url & data & w1 & w2 & s3
        & Hinfo & Hlatest & Hurl & Hget & Hpath & Hfs & _).
  rewrite Hfs. f_equal.
  injection Hget as <-. reflexivity.
Defined.

(** C8.  When the gallery answers each request the same way whatever its
    state, [downloadExtensionVsix], which resolves the version twice, and
    the variant that resolves it once fetch the same URLs and, when both
    resolve, resolve with the same path; when the download server too
    answers each URL the same way, they settle alike, with the same value
    or the same error, and leave the same files on disk. *)
Theorem coalesced_resolution_equivalent
    {S : Type} (P : Platform S) (publisher extension : string)
    (outputDir_opt : option string) (w : World S) :
  deterministicGallery P ->
  let twice := downloadExtensionVsix P publisher extension outputDir_opt w in
  let once :=
    downloadExtensionVsix_coalesced P publisher extension outputDir_opt w in
  fetched (snd twice) = fetched (snd once)
  /\ (forall path path',
        fst twice = Resolved path -> fst once = Resolved path' ->
        path = path')
  /\ (deterministicDownload P ->
      fst twice = fst once /\ fs (snd twice) = fs (snd once)).
Proof.
  intros Hgallery twice once. subst twice once.
  unfold downloadExtensionVsix, downloadExtensionVsix_coalesced,
    getVsixDownloadUrl.
  cbv zeta. unfold bind.
  rewrite getExtensionVersion_post.
  set (request := queryRequest publisher extension [QF1; QF2]).
  pose proof (Hgallery request (remote w)
                (snd (axios_post P request (remote w)))) as Hsame.
  destruct (axios_post P request (remote w)) as [answer s1] eqn:Hpost1.
  simpl in Hsame. simpl fst. simpl snd.
  destruct (resolveExtension answer) as [extensionInfo | e] eqn:Hresolve;
    [| simpl; auto using eq_refl; repeat split; congruence].
  rewrite getExtensionVersion_post. fold request. simpl remote.
  destruct (axios_post P request s1) as [answer' s2] eqn:Hpost2.
  simpl in Hsame. subst answer'. simpl fst. simpl snd. rewrite Hresolve.
  destruct (versions extensionInfo !! 0%nat) as [latest |]; simpl;
    [| repeat split; congruence].
  unfold ret.
  destruct (find isVsixAsset (files latest)) as [vsixAsset |]; simpl;
    [| repeat split; congruence].
  unfold downloadFile. simpl.
  set (destination :=
         join P (default "." outputDir_opt)
           (vsixFileName publisher extension (version latest))).
  pose proof (fun H : deterministicDownload P => H (source vsixAsset) s2 s1)
    as Hdownload.
  destruct (axios_get P (source vsixAsset) s2) as [[e2 | data2] s3];
    destruct (axios_get P (source vsixAsset) s1) as [[e1 | data1] s3'];
    simpl in Hdownload;
    destruct (createWriteStream P destination) as [e |]; simpl;
    (split; [reflexivity |]);
    (split; [intros path path' H1 H2; congruence |]);
    intros Hd; specialize (Hdownload Hd);
    try discriminate Hdownload;
    try (injection Hdownload as ->); auto.
Qed.

Lemma coalesced_resolution_equivalent_witness :
  deterministicGallery Sample.found
  /\ deterministicDownload Sample.found
  /\ fst (downloadExtensionVsix Sample.found "ms-vscode" "cpptools"
            (Some "out") Sample.start)
     = fst (downloadExtensionVsix_coalesced Sample.found "ms-vscode"
              "cpptools" (Some "out") Sample.start).
Proof.
  assert (Hg : deterministicGallery Sample.found)
    by (intros r s1 s2; reflexivity).
  assert (Hd : deterministicDownload Sample.found)
    by (intros u s1 s2; reflexivity).
  split; [exact Hg |]. split; [exact Hd |].
  apply (coalesced_resolution_equivalent Sample.found "ms-vscode" "cpptools"
           (Some "out") Sample.start Hg).
  exact Hd.
Defined.

(* ================================================================== *)
(** ** More on the flag encoding *)
(* ================================================================== *)

Section FlagAlgebra.

Lemma orAll_app (l l' : list Z) :
  orAll (l ++ l') = Z.lor (orAll l) (orAll l').
Proof.
  induction l as [| x l IH]; simpl.
  - reflexivity.
  - now rewrite IH, Z.lor_assoc.
Qed.

Lemma orAll_testbit (l : list Z) (i : Z) :
  Z.testbit (orAll l) i = existsb (fun x => Z.testbit x i) l.
Proof.
  induction l as [| x l IH]; simpl.
  - apply Z.testbit_0_l.
  - now rewrite Z.lor_spec, IH.
Qed.

Lemma existsb_flag_bit (flags : list QueryFlag) (i : Z) :
  existsb (fun x => Z.testbit x i) (map flagValue flags)
  = existsb (fun f => Z.testbit (flagValue f) i) flags.
Proof.
  induction flags as [| f flags IH]; simpl; [reflexivity | now rewrite IH].
Qed.

Lemma existsb_sameFlags (flags flags' : list QueryFlag) (i : Z) :
  sameFlags flags flags' ->
  existsb (fun f => Z.testbit (flagValue f) i) flags
  = existsb (fun f => Z.testbit (flagValue f) i) flags'.
Proof.
  intros Hsame.
  destruct (existsb _ flags) eqn:E; destruct (existsb _ flags') eqn:E';
    try reflexivity.
  - apply List.existsb_exists in E as (f & Hin & Hbit).
    assert (Hex : existsb (fun f => Z.testbit (flagValue f) i) flags' = true).
    { apply List.existsb_exists. exists f. split; [now apply Hsame | exact Hbit]. }
    congruence.
  - apply List.existsb_exists in E' as (f & Hin & Hbit).
    assert (Hex : existsb (fun f => Z.testbit (flagValue f) i) flags = true).
    { apply List.existsb_exists. exists f. split; [now apply Hsame | exact Hbit]. }
    congruence.
Qed.

Lemma encodeFlags_sameFlags (flags flags' : list QueryFlag) :
  sameFlags flags flags' ->
  encodeFlags (map flagValue flags) = encodeFlags (map flagValue flags').
Proof.
  intros Hsame. rewrite !encodeFlags_orAll.
  apply Z.bits_inj'. intros i _.
  rewrite !orAll_testbit, !existsb_flag_bit.
  now apply existsb_sameFlags.
Qed.

Lemma lor_absorb (a b : Z) : Z.land a b = a -> Z.lor a b = b.
Proof.
  intros H. apply Z.bits_inj'. intros i _.
  rewrite Z.lor_spec. rewrite <- H at 1. rewrite Z.land_spec.
  destruct (Z.testbit a i), (Z.testbit b i); reflexivity.
Qed.

End FlagAlgebra.

(** X1.  The encoding of two lists of flags put together is the bitwise OR
    of their encodings, and no encoding exceeds 65535, the encoding of a
    list that holds every flag. *)
Theorem flag_encoding_of_append (flags flags' : list QueryFlag) :
  encodeFlags (map flagValue (flags ++ flags'))
    = Z.lor (encodeFlags (map flagValue flags))
            (encodeFlags (map flagValue flags'))
  /\ 0 <= encodeFlags (map flagValue flags) <= 65535
  /\ encodeFlags
       (map flagValue
          [QF0; QF1; QF2; QF4; QF8; QF16; QF32; QF64; QF128; QF256; QF512;
           QF1024; QF2048; QF4096; QF8192; QF16384; QF16863; QF32768])
     = 65535.
Proof.
  split; [| split].
  - rewrite !encodeFlags_orAll, map_app. apply orAll_app.
  - rewrite encodeFlags_orAll.
    pose proof (orAll_range _ (flagValues_range flags)). lia.
  - reflexivity.
Qed.

(** X2.  A bit of the encoding is set exactly when it is set in the value
    of one of the flags. *)
Theorem flag_encoding_bits (flags : list QueryFlag) (i : Z) :
  Z.testbit (encodeFlags (map flagValue flags)) i = true
  <-> exists f, In f flags /\ Z.testbit (flagValue f) i = true.
Proof.
  rewrite encodeFlags_orAll, orAll_testbit, existsb_flag_bit.
  apply List.existsb_exists.
Qed.

(** X3.  A flag whose bits are all set in the encoding of a list adds
    nothing to it: a flag that is in the list already, the flag 0, and each
    of the flags that 16863 is made of, next to 16863. *)
Theorem flag_already_covered (f : QueryFlag) (flags : list QueryFlag) :
  Z.land (flagValue f) (encodeFlags (map flagValue flags)) = flagValue f ->
  encodeFlags (map flagValue (f :: flags))
    = encodeFlags (map flagValue flags).
Proof.
  intros Hcovered.
  rewrite (encodeFlags_orAll (f :: flags)). simpl.
  rewrite <- encodeFlags_orAll.
  now apply lor_absorb.
Qed.

Lemma flag_already_covered_witness :
  encodeFlags (map flagValue [QF256; QF16863])
  = encodeFlags (map flagValue [QF16863]).
Proof.
  apply (flag_already_covered QF256 [QF16863]). reflexivity.
Defined.

(** X4.  [getExtensionInfo] depends on its flags only through the set they
    form: two lists that hold the same flags, in whatever order and number,
    send the same request and settle alike, in the same world. *)
Theorem same_flags_same_query
    {S : Type} (P : Platform S) (publisher extension : string)
    (flags flags' : list QueryFlag) (w : World S) :
  sameFlags flags flags' ->
  queryRequest publisher extension flags
    = queryRequest publisher extension flags'
  /\ getExtensionInfo P publisher extension flags w
     = getExtensionInfo P publisher extension flags' w.
Proof.
  intros Hsame.
  assert (Hreq : queryRequest publisher extension flags
                 = queryRequest publisher extension flags').
  { unfold queryRequest, queryPayload.
    now rewrite (encodeFlags_sameFlags _ _ Hsame). }
  split; [exact Hreq |].
  rewrite !getExtensionInfo_post. now rewrite Hreq.
Qed.

Lemma same_flags_same_query_witness :
  getExtensionInfo Sample.found "ms-vscode" "cpptools"
    [QF256; QF1; QF256; QF1] Sample.start
  = getExtensionInfo Sample.found "ms-vscode" "cpptools" [QF1; QF256]
      Sample.start.
Proof.
  refine (proj2 (same_flags_same_query Sample.found "ms-vscode" "cpptools"
                   [QF256; QF1; QF256; QF1] [QF1; QF256] Sample.start _)).
  intros f. simpl. tauto.
Defined.

(* ================================================================== *)
(** ** More on the lookups *)
(* ================================================================== *)

Section Lookups.
Context {S : Type} (P : Platform S).

(** A continuation that leaves the world alone does not change where an
    awaited call ends. *)
Lemma bind_snd {A B : Type} (m : Promise S A) (k : A -> Promise S B)
    (w : World S) :
  (forall a w', snd (k a w') = w') -> snd (bind m k w) = snd (m w).
Proof.
  intros Hk. unfold bind.
  destruct (m w) as [[a | e] w']; simpl; [apply Hk | reflexivity].
Qed.

Lemma prop_snd {A B : Type} (x : option A) (name : string) (p : A -> B)
    (w : World S) :
  snd (prop x name p w) = w.
Proof. destruct x; reflexivity. Qed.

Lemma getExtensionInfo_snd (publisher extension : string)
    (flags : list QueryFlag) (w : World S) :
  snd (getExtensionInfo P publisher extension flags w)
  = afterPost w (queryRequest publisher extension flags)
      (snd (axios_post P (queryRequest publisher extension flags)
              (remote w))).
Proof. now rewrite getExtensionInfo_post. Qed.

Lemma getExtensionVersion_snd (publisher extension : string)
    (version_opt : option string) (w : World S) :
  snd (getExtensionVersion P publisher extension version_opt w)
  = snd (getExtensionInfo P publisher extension [QF1; QF2] w).
Proof.
  unfold getExtensionVersion. apply bind_snd.
  intros info w'. destruct (isFalsy version_opt); [reflexivity |].
  simpl. destruct (find _ (versions info)); reflexivity.
Qed.

Lemma getLatestVersion_snd (publisher extension : string) (w : World S) :
  snd (getLatestVersion P publisher extension w)
  = snd (getExtensionInfo P publisher extension [QF1; QF2] w).
Proof.
  unfold getLatestVersion. rewrite bind_snd.
  - apply getExtensionVersion_snd.
  - intros v w'. apply prop_snd.
Qed.

Lemma getVsixDownloadUrl_snd (publisher extension : string) (w : World S) :
  snd (getVsixDownloadUrl P publisher extension w)
  = snd (getExtensionInfo P publisher extension [QF1; QF2] w).
Proof.
  unfold getVsixDownloadUrl. rewrite bind_snd.
  - apply getExtensionVersion_snd.
  - intros v w'. rewrite bind_snd; [apply prop_snd |].
    intros fl w''. destruct (find isVsixAsset fl); reflexivity.
Qed.

(** The outcome of [getExtensionVersion] once the extension is there. *)
Lemma getExtensionVersion_resolved (publisher extension : string)
    (version_opt : option string) (w w' : World S)
    (extensionInfo : ExtensionInfo) :
  getExtensionInfo P publisher extension [QF1; QF2] w
    = (Resolved extensionInfo, w') ->
  getExtensionVersion P publisher extension version_opt w
  = (if isFalsy version_opt
     then Resolved (versions extensionInfo !! 0%nat)
     else
       match find (fun v => String.eqb (version v)
                              (default EmptyString version_opt))
               (versions extensionInfo) with
       | Some v => Resolved (Some v)
       | None => Rejected (VersionNotFoundError "Version not found."
                             (default EmptyString version_opt))
       end, w').
Proof.
  intros Hinfo. unfold getExtensionVersion.
  rewrite (bind_resolved _ _ _ _ _ Hinfo).
  destruct (isFalsy version_opt); [reflexivity |].
  simpl. destruct (find _ (versions extensionInfo)); reflexivity.
Qed.

Lemma isFalsy_false (version_opt : option string) :
  isFalsy version_opt = false <->
  exists requested,
    version_opt = Some requested /\ requested <> EmptyString.
Proof.
  split.
  - destruct version_opt as [[| c r] |]; simpl; try discriminate.
    intros _. exists (String c r). split; [reflexivity | discriminate].
  - intros (requested & -> & Hne). now apply isFalsy_nonempty.
Qed.

Lemma lookup_0_In {A : Type} (l : list A) (x : A) :
  l !! 0%nat = Some x -> In x l.
Proof. destruct l; simpl; [discriminate |]. intros [= ->]. now left. Qed.

End Lookups.

(** X5.  [getExtensionInfo] resolves with the first extension of the first
    result set, whatever extensions and result sets come after it, and
    sends the flags it was given. *)
Theorem first_extension_of_first_result_set
    {S : Type} (P : Platform S) (publisher extension : string)
    (flags : list QueryFlag) (w : World S) (s' : S)
    (first : SearchResults) (rest : list SearchResults)
    (extensionInfo : ExtensionInfo) (others : list ExtensionInfo) :
  axios_post P (queryRequest publisher extension flags) (remote w)
    = (inr (first :: rest), s') ->
  extensions first = extensionInfo :: others ->
  getExtensionInfo P publisher extension flags w
  = (Resolved extensionInfo,
     afterPost w (queryRequest publisher extension flags) s').
Proof.
  intros Hpost Hext.
  rewrite getExtensionInfo_post, Hpost. simpl. now rewrite Hext.
Qed.

Lemma first_extension_of_first_result_set_witness :
  getExtensionInfo Scenario.crowded "ms-vscode" "cpptools" [QF1; QF256]
    Sample.start
  = (Resolved (Sample.cpptools [Sample.v1_2_0]),
     afterPost Sample.start
       (queryRequest "ms-vscode" "cpptools" [QF1; QF256]) tt).
Proof.
  apply (first_extension_of_first_result_set Scenario.crowded "ms-vscode"
           "cpptools" [QF1; QF256] Sample.start tt
           {| extensions := [Sample.cpptools [Sample.v1_2_0];
                             Sample.cpptools [Sample.v1_2_30]] |}
           [ {| extensions := [] |} ]
           (Sample.cpptools [Sample.v1_2_0])
           [Sample.cpptools [Sample.v1_2_30]]);
    reflexivity.
Defined.

(** X6.  [getExtensionInfo], [getExtensionVersion], [getLatestVersion] and
    [getVsixDownloadUrl] send exactly one query each, whether they resolve
    or reject, the last three always with the flags [1, 2]; none of them
    fetches a URL or changes a file. *)
Theorem lookups_send_one_query_and_write_nothing
    {S : Type} (P : Platform S) (publisher extension : string)
    (flags : list QueryFlag) (version_opt : option string) (w : World S) :
  let quiet (request : PostRequest) (w' : World S) :=
    posted w' = posted w ++ [request]
    /\ fetched w' = fetched w /\ fs w' = fs w in
  quiet (queryRequest publisher extension flags)
    (snd (getExtensionInfo P publisher extension flags w))
  /\ quiet (queryRequest publisher extension [QF1; QF2])
       (snd (getExtensionVersion P publisher extension version_opt w))
  /\ quiet (queryRequest publisher extension [QF1; QF2])
       (snd (getLatestVersion P publisher extension w))
  /\ quiet (queryRequest publisher extension [QF1; QF2])
       (snd (getVsixDownloadUrl P publisher extension w)).
Proof.
  cbv zeta.
  rewrite getExtensionVersion_snd, getLatestVersion_snd,
    getVsixDownloadUrl_snd, !getExtensionInfo_snd.
  simpl. repeat split; reflexivity.
Qed.

(** X7.  When the HTTP layer rejects the query, every operation rejects
    with that very error, not wrapped into an error of the library;
    [downloadExtensionVsix] then has sent one query only, fetched no URL
    and changed no file. *)
Theorem transport_failure_propagates
    {S : Type} (P : Platform S) (publisher extension : string)
    (e : JsError) (w : World S) :
  rejectsQuery P publisher extension e w ->
  (forall flags,
      fst (getExtensionInfo P publisher extension flags w) = Rejected e)
  /\ (forall version_opt,
      fst (getExtensionVersion P publisher extension version_opt w)
        = Rejected e)
  /\ fst (getLatestVersion P publisher extension w) = Rejected e
  /\ fst (getVsixDownloadUrl P publisher extension w) = Rejected e
  /\ (forall outputDir_opt,
      let settled :=
        downloadExtensionVsix P publisher extension outputDir_opt w in
      fst settled = Rejected e
      /\ posted (snd settled)
         = posted w ++ [queryRequest publisher extension [QF1; QF2]]
      /\ fetched (snd settled) = fetched w
      /\ fs (snd settled) = fs w).
Proof.
  intros Hrej.
  assert (Hinfo : forall flags,
             getExtensionInfo P publisher extension flags w
             = (Rejected e,
                afterPost w (queryRequest publisher extension flags)
                  (snd (axios_post P
                          (queryRequest publisher extension flags)
                          (remote w))))).
  { intros flags. destruct (Hrej flags) as [s' Hpost].
    rewrite getExtensionInfo_post, Hpost. reflexivity. }
  assert (Hversion : forall version_opt,
             getExtensionVersion P publisher extension version_opt w
             = (Rejected e,
                afterPost w (queryRequest publisher extension [QF1; QF2])
                  (snd (axios_post P
                          (queryRequest publisher extension [QF1; QF2])
                          (remote w))))).
  { intros version_opt. unfold getExtensionVersion.
    apply bind_rejected, Hinfo. }
  split; [| split; [| split; [| split]]].
  - intros flags. now rewrite Hinfo.
  - intros version_opt. now rewrite Hversion.
  - unfold getLatestVersion.
    now rewrite (bind_rejected _ _ _ _ _ (Hversion None)).
  - unfold getVsixDownloadUrl.
    now rewrite (bind_rejected _ _ _ _ _ (Hversion None)).
  - intros outputDir_opt. cbv zeta. unfold downloadExtensionVsix. cbv zeta.
    rewrite (bind_rejected _ _ _ _ _ (Hversion None)).
    simpl. repeat split; reflexivity.
Qed.

Lemma transport_failure_propagates_witness :
  rejectsQuery Scenario.offline "ms-vscode" "cpptools"
    (AxiosError "ENOTFOUND") Sample.start
  /\ fst (getVsixDownloadUrl Scenario.offline "ms-vscode" "cpptools"
            Sample.start)
     = Rejected (AxiosError "ENOTFOUND").
Proof.
  assert (H : rejectsQuery Scenario.offline "ms-vscode" "cpptools"
                (AxiosError "ENOTFOUND") Sample.start).
  { intros flags. exists tt. reflexivity. }
  split; [exact H |].
  apply (transport_failure_propagates Scenario.offline "ms-vscode"
           "cpptools" (AxiosError "ENOTFOUND") Sample.start H).
Defined.

(** X8.  Once the extension is obtained, [getLatestVersion] resolves with
    the version string of the first entry of its versions list, and
    rejects with a [TypeError], not with an error of the library, when the
    list is empty. *)
Theorem latest_version_string
    {S : Type} (P : Platform S) (publisher extension : string)
    (w w' : World S) (extensionInfo : ExtensionInfo) :
  getExtensionInfo P publisher extension [QF1; QF2] w
    = (Resolved extensionInfo, w') ->
  getLatestVersion P publisher extension w
  = (match versions extensionInfo with
     | latest :: _ => Resolved (version latest)
     | [] => Rejected (TypeError "version")
     end, w')
  /\ VSCodeMarketplaceClient.getLatestVersion P publisher extension w
     = getLatestVersion P publisher extension w.
Proof.
  intros Hinfo. split; [| reflexivity].
  unfold getLatestVersion.
  rewrite (bind_resolved _ _ _ _ _
             (getExtensionVersion_resolved P _ _ None _ _ _ Hinfo)).
  simpl. destruct (versions extensionInfo); reflexivity.
Qed.

Lemma latest_version_string_witness :
  getLatestVersion Sample.found "ms-vscode" "cpptools" Sample.start
  = (Resolved "1.2.30",
     afterPost Sample.start (queryRequest "ms-vscode" "cpptools" [QF1; QF2])
       tt).
Proof.
  refine (proj1 (latest_version_string Sample.found "ms-vscode" "cpptools"
                   Sample.start _
                   (Sample.cpptools [Sample.v1_2_30; Sample.v1_2_0])
                   eq_refl)).
Defined.

(** X9.  With a non-empty version argument, [getExtensionVersion] resolves
    with the first entry, in the order of the versions list, that has that
    version string, however many entries with it come later. *)
Theorem first_version_entry_wins
    {S : Type} (P : Platform S) (publisher extension requested : string)
    (w w' : World S) (extensionInfo : ExtensionInfo)
    (before after : list ExtensionVersion) (entry : ExtensionVersion) :
  requested <> EmptyString ->
  getExtensionInfo P publisher extension [QF1; QF2] w
    = (Resolved extensionInfo, w') ->
  versions extensionInfo = before ++ entry :: after ->
  (forall earlier, In earlier before -> version earlier <> requested) ->
  version entry = requested ->
  getExtensionVersion P publisher extension (Some requested) w
    = (Resolved (Some entry), w').
Proof.
  intros Hne Hinfo Hversions Hbefore Hentry.
  rewrite (getExtensionVersion_find P _ _ _ _ _ _ Hne Hinfo), Hversions.
  rewrite find_first; [reflexivity | | now apply String.eqb_eq].
  intros earlier Hin. apply String.eqb_neq. now apply Hbefore.
Qed.

Lemma first_version_entry_wins_witness :
  getExtensionVersion Scenario.duplicated "ms-vscode" "cpptools"
    (Some "1.2.0") Sample.start
  = (Resolved (Some Sample.v1_2_0),
     afterPost Sample.start (queryRequest "ms-vscode" "cpptools" [QF1; QF2])
       tt).
Proof.
  assert (Hne : "1.2.0" <> EmptyString) by discriminate.
  refine (first_version_entry_wins Scenario.duplicated "ms-vscode"
            "cpptools" "1.2.0" Sample.start _
            (Sample.cpptools
               [Sample.v1_2_30; Sample.v1_2_0; Scenario.v1_2_0_again])
            [Sample.v1_2_30] [Scenario.v1_2_0_again] Sample.v1_2_0
            Hne eq_refl eq_refl _ eq_refl).
  intros earlier [<- | []]. discriminate.
Defined.

(** X10.  Whatever [getExtensionVersion] resolves with, other than
    [undefined], is an entry of the versions list of the extension it
    obtained: the entry at index 0 when the version argument is omitted or
    empty, and an entry with the requested version string otherwise. *)
Theorem resolved_version_is_an_entry
    {S : Type} (P : Platform S) (publisher extension : string)
    (version_opt : option string) (w w' w'' : World S)
    (extensionInfo : ExtensionInfo) (entry : ExtensionVersion) :
  getExtensionInfo P publisher extension [QF1; QF2] w
    = (Resolved extensionInfo, w') ->
  getExtensionVersion P publisher extension version_opt w
    = (Resolved (Some entry), w'') ->
  In entry (versions extensionInfo)
  /\ (isFalsy version_opt = true ->
      versions extensionInfo !! 0%nat = Some entry)
  /\ (forall requested,
        version_opt = Some requested -> requested <> EmptyString ->
        version entry = requested)
  /\ w'' = w'.
Proof.
  intros Hinfo Hv.
  rewrite (getExtensionVersion_resolved P _ _ version_opt _ _ _ Hinfo) in Hv.
  destruct (isFalsy version_opt) eqn:Hfalsy.
  - injection Hv as H0 Hw. repeat split; auto.
    + now apply lookup_0_In.
    + intros requested -> Hne.
      rewrite (isFalsy_nonempty _ Hne) in Hfalsy. discriminate.
  - apply isFalsy_false in Hfalsy as (r & -> & Hr). simpl in Hv.
    destruct (find _ (versions extensionInfo)) as [found |] eqn:Hfind;
      [| discriminate].
    injection Hv as -> Hw.
    apply find_some in Hfind as [Hin Heq]. apply String.eqb_eq in Heq.
    repeat split; auto.
    + discriminate.
    + intros requested [= <-] _. exact Heq.
Qed.

Lemma resolved_version_is_an_entry_witness :
  In Sample.v1_2_0 [Sample.v1_2_30; Sample.v1_2_0].
Proof.
  refine (proj1 (resolved_version_is_an_entry Sample.found "ms-vscode"
                   "cpptools" (Some "1.2.0") Sample.start _ _
                   (Sample.cpptools [Sample.v1_2_30; Sample.v1_2_0])
                   Sample.v1_2_0 eq_refl eq_refl)).
Defined.

(** X11.  Once the extension is obtained, [getExtensionVersion] rejects
    with a [VersionNotFoundError] exactly when a non-empty version string
    is requested that no entry of the versions list has; the message of
    that error quotes the requested version, and quotes the literal of the
    [throw] statement where the extension would be named. *)
Theorem version_not_found_exactly_when
    {S : Type} (P : Platform S) (publisher extension : string)
    (version_opt : option string) (w w' : World S)
    (extensionInfo : ExtensionInfo) :
  getExtensionInfo P publisher extension [QF1; QF2] w
    = (Resolved extensionInfo, w') ->
  ((exists id ver,
       fst (getExtensionVersion P publisher extension version_opt w)
       = Rejected (VersionNotFoundError id ver))
   <-> (exists requested,
          version_opt = Some requested /\ requested <> EmptyString
          /\ forall entry, In entry (versions extensionInfo) ->
                           version entry <> requested))
  /\ (forall e,
        fst (getExtensionVersion P publisher extension version_opt w)
          = Rejected e ->
        exists requested,
          version_opt = Some requested
          /\ e = VersionNotFoundError "Version not found." requested
          /\ errorMessage e
             = "Version " +:+ dquote +:+ requested +:+ dquote
               +:+ " for extension " +:+ dquote +:+ "Version not found."
               +:+ dquote +:+ " not found.").
Proof.
  intros Hinfo.
  rewrite (getExtensionVersion_resolved P _ _ version_opt _ _ _ Hinfo).
  simpl fst.
  destruct (isFalsy version_opt) eqn:Hfalsy.
  - split; [split |].
    + intros (id & ver & H). discriminate H.
    + intros (r & -> & Hr & _).
      rewrite (isFalsy_nonempty _ Hr) in Hfalsy. discriminate.
    + intros e H. discriminate H.
  - apply isFalsy_false in Hfalsy as (r & -> & Hr). simpl.
    destruct (find _ (versions extensionInfo)) as [found |] eqn:Hfind.
    + split; [split |].
      * intros (id & ver & H). discriminate H.
      * intros (r' & [= <-] & _ & Hnone).
        apply find_some in Hfind as [Hin Heq]. apply String.eqb_eq in Heq.
        now destruct (Hnone found Hin).
      * intros e H. discriminate H.
    + split; [split |].
      * intros _. exists r. repeat split; [exact Hr |].
        intros entry Hin. apply String.eqb_neq.
        apply (find_none _ _ Hfind entry Hin).
      * intros _. eauto.
      * intros e [= <-]. exists r. repeat split.
Qed.

Lemma version_not_found_exactly_when_witness :
  exists id ver,
    fst (getExtensionVersion Sample.found "ms-vscode" "cpptools"
           (Some "1.2.3") Sample.start)
    = Rejected (VersionNotFoundError id ver).
Proof.
  apply (proj1 (version_not_found_exactly_when Sample.found "ms-vscode"
                  "cpptools" (Some "1.2.3") Sample.start _
                  (Sample.cpptools [Sample.v1_2_30; Sample.v1_2_0])
                  eq_refl)).
  exists "1.2.3". repeat split; [discriminate |].
  intros entry [<- | [<- | []]]; discriminate.
Defined.

(** What [getVsixDownloadUrl] makes of each answer of the gallery. *)
Lemma getVsixDownloadUrl_post
    {S : Type} (P : Platform S) (publisher extension : string)
    (w : World S) :
  getVsixDownloadUrl P publisher extension w
  = (match resolveExtension
             (fst (axios_post P (queryRequest publisher extension [QF1; QF2])
                     (remote w))) with
     | Rejected e => Rejected e
     | Resolved extensionInfo =>
         match versions extensionInfo !! 0%nat with
         | None => Rejected (TypeError "files")
         | Some latest =>
             match find isVsixAsset (files latest) with
             | Some vsixAsset => Resolved (source vsixAsset)
             | None => Rejected (VsixFileNotFoundError "VSIX file not found.")
             end
         end
     end,
     afterPost w (queryRequest publisher extension [QF1; QF2])
       (snd (axios_post P (queryRequest publisher extension [QF1; QF2])
               (remote w)))).
Proof.
  unfold getVsixDownloadUrl, bind.
  rewrite getExtensionVersion_post.
  destruct (resolveExtension _) as [info | e]; [| reflexivity].
  destruct (versions info !! 0%nat) as [latest |]; simpl; [| reflexivity].
  destruct (find isVsixAsset (files latest)); reflexivity.
Qed.



(* ================================================================== *)
(** ** More on the download *)
(* ================================================================== *)

(** X13.  [downloadFile] fetches its URL once and sends no query; it
    leaves every file other than its destination as it was; when it
    resolves, it resolves with its destination, which then holds the bytes
    that were served, whatever it held before; when the GET is rejected, it
    rejects with that error and no file is changed. *)
Theorem downloadFile_changes_destination_only
    {S : Type} (P : Platform S) (url destination other : string)
    (w : World S) :
  other <> destination ->
  let settled := downloadFile P url destination w in
  fs (snd settled) !! other = fs w !! other
  /\ fetched (snd settled) = fetched w ++ [url]
  /\ posted (snd settled) = posted w
  /\ (forall path,
        fst settled = Resolved path ->
        path = destination
        /\ exists data,
             fst (axios_get P url (remote w)) = inr data
             /\ fs (snd settled) !! destination = Some data)
  /\ (forall e,
        fst (axios_get P url (remote w)) = inl e ->
        fst settled = Rejected e /\ fs (snd settled) = fs w).
Proof.
  intros Hother. cbv zeta. unfold downloadFile.
  destruct (axios_get P url (remote w)) as [[e0 | data] s'].
  - simpl. repeat split; try reflexivity; try discriminate; congruence.
  - destruct (createWriteStream P destination) as [e1 |]; simpl.
    + repeat split; try reflexivity; discriminate.
    + split; [now apply lookup_insert_ne |].
      repeat split; try reflexivity; try discriminate.
      * congruence.
      * exists data. split; [reflexivity | apply lookup_insert_eq].
Qed.

Lemma downloadFile_changes_destination_only_witness :
  let settled :=
    downloadFile Sample.found "https://cdn.example/a.vsix"
      "./ms-vscode.cpptools-1.2.30.vsix" Scenario.stale in
  fs (snd settled) !! "notes.txt" = Some [x01].
Proof.
  cbv zeta.
  assert (Hother : "notes.txt" <> "./ms-vscode.cpptools-1.2.30.vsix")
    by discriminate.
  rewrite (proj1 (downloadFile_changes_destination_only Sample.found
                    "https://cdn.example/a.vsix"
                    "./ms-vscode.cpptools-1.2.30.vsix" "notes.txt"
                    Scenario.stale Hother)).
  reflexivity.
Defined.

(** X14.  When [downloadExtensionVsix] resolves, it has sent the same
    query twice, with the flags [1, 2], it has fetched one URL, and every
    file other than the one it resolves with is as it was. *)
Theorem download_round_trips
    {S : Type} (P : Platform S) (publisher extension : string)
    (outputDir_opt : option string) (w w' : World S) (path : string) :
  downloadExtensionVsix P publisher extension outputDir_opt w
    = (Resolved path, w') ->
  posted w'
    = posted w ++ [queryRequest publisher extension [QF1; QF2];
                   queryRequest publisher extension [QF1; QF2]]
  /\ (exists downloadUrl, fetched w' = fetched w ++ [downloadUrl])
  /\ (forall other, other <> path -> fs w' !! other = fs w !! other).
Proof.
  intros Hdl.
  unfold downloadExtensionVsix in Hdl. cbv zeta in Hdl.
  unfold bind at 1 in Hdl.
  pose proof (getExtensionVersion_snd P publisher extension None w) as Hw1.
  rewrite getExtensionInfo_snd in Hw1.
  destruct (getExtensionVersion P publisher extension None w)
    as [[extensionVersion | e] w1]; [| discriminate].
  unfold bind at 1 in Hdl.
  pose proof (getVsixDownloadUrl_snd P publisher extension w1) as Hw2.
  rewrite getExtensionInfo_snd in Hw2.
  destruct (getVsixDownloadUrl P publisher extension w1)
    as [[downloadUrl | e] w2]; [| discriminate].
  destruct extensionVersion as [latest |]; [| discriminate].
  simpl in Hdl, Hw1, Hw2. unfold bind, ret in Hdl.
  apply downloadFile_resolved in Hdl as (data & s3 & Hget & -> & ->).
  subst w2 w1. simpl. split; [| split].
  - now rewrite <- app_assoc.
  - now exists downloadUrl.
  - intros other Hother. now apply lookup_insert_ne.
Qed.

Lemma download_round_trips_witness :
  length
    (posted (snd (downloadExtensionVsix Sample.found "ms-vscode" "cpptools"
                    None Scenario.stale))) = 2%nat
  /\ fs (snd (downloadExtensionVsix Sample.found "ms-vscode" "cpptools"
                None Scenario.stale)) !! "notes.txt" = Some [x01].
Proof.
  destruct (download_round_trips Sample.found "ms-vscode" "cpptools" None
              Scenario.stale
              (snd (downloadExtensionVsix Sample.found "ms-vscode"
                      "cpptools" None Scenario.stale))
              "./ms-vscode.cpptools-1.2.30.vsix" eq_refl)
    as (Hposted & _ & Hframe).
  split.
  - rewrite Hposted. reflexivity.
  - rewrite (Hframe "notes.txt"); [reflexivity | discriminate].
Defined.

(** X15.  [downloadExtensionVsix] takes the version string of the file
    name from the answer to its first query, and the URL from the answer
    to its second query: when both answers name an extension with a latest
    version, the second with a VSIX package entry, and the GET and the
    writer succeed, it resolves, and the file named after the first latest
    version holds the bytes of the package of the second. *)
Theorem download_names_first_fetches_second
    {S : Type} (P : Platform S) (publisher extension : string)
    (outputDir_opt : option string) (w : World S) (s1 s2 s3 : S)
    (first second : SearchResults) (rest1 rest2 : list SearchResults)
    (info1 info2 : ExtensionInfo) (others1 others2 : list ExtensionInfo)
    (latest1 latest2 : ExtensionVersion)
    (older1 older2 : list ExtensionVersion)
    (vsixAsset : ExtensionFile) (data : list byte) :
  let request := queryRequest publisher extension [QF1; QF2] in
  let destination :=
    join P (default "." outputDir_opt)
      (vsixFileName publisher extension (version latest1)) in
  axios_post P request (remote w) = (inr (first :: rest1), s1) ->
  extensions first = info1 :: others1 ->
  versions info1 = latest1 :: older1 ->
  axios_post P request s1 = (inr (second :: rest2), s2) ->
  extensions second = info2 :: others2 ->
  versions info2 = latest2 :: older2 ->
  find isVsixAsset (files latest2) = Some vsixAsset ->
  axios_get P (source vsixAsset) s2 = (inr data, s3) ->
  createWriteStream P destination = None ->
  downloadExtensionVsix P publisher extension outputDir_opt w
  = (Resolved destination,
     afterWrite
       (afterGet (afterPost (afterPost w request s1) request s2)
          (source vsixAsset) s3)
       destination data).
Proof.
  intros request destination Hpost1 Hext1 Hver1 Hpost2 Hext2 Hver2 Hfind
    Hget Hwrite.
  unfold downloadExtensionVsix. cbv zeta.
  assert (Hv1 : getExtensionVersion P publisher extension None w
                = (Resolved (Some latest1), afterPost w request s1)).
  { rewrite getExtensionVersion_post. fold request.
    rewrite Hpost1. simpl. now rewrite Hext1, Hver1. }
  assert (Hv2 : getExtensionVersion P publisher extension None
                  (afterPost w request s1)
                = (Resolved (Some latest2),
                   afterPost (afterPost w request s1) request s2)).
  { rewrite getExtensionVersion_post. fold request. simpl remote.
    rewrite Hpost2. simpl. now rewrite Hext2, Hver2. }
  rewrite (bind_resolved _ _ _ _ _ Hv1).
  unfold bind at 1.
  rewrite (getVsixDownloadUrl_find P _ _ _ _ _ Hv2), Hfind.
  simpl. unfold bind, ret. simpl.
  unfold downloadFile. simpl remote. rewrite Hget.
  fold destination. now rewrite Hwrite.
Qed.

Lemma download_names_first_fetches_second_witness :
  let settled :=
    downloadExtensionVsix Scenario.republishing "ms-vscode" "cpptools" None
      Scenario.fresh in
  fst settled = Resolved "./ms-vscode.cpptools-1.2.30.vsix"
  /\ fetched (snd settled) = ["https://cdn.example/b.vsix"]
  /\ fs (snd settled) !! "./ms-vscode.cpptools-1.2.30.vsix"
     = Some Scenario.bytesB.
Proof.
  cbv zeta.
  rewrite (download_names_first_fetches_second Scenario.republishing
             "ms-vscode" "cpptools" None Scenario.fresh 1%nat 2%nat 2%nat
             {| extensions := [Sample.cpptools [Sample.v1_2_30]] |}
             {| extensions :=
                  [Sample.cpptools [Scenario.v2_0_0; Sample.v1_2_30]] |}
             [] [] (Sample.cpptools [Sample.v1_2_30])
             (Sample.cpptools [Scenario.v2_0_0; Sample.v1_2_30]) [] []
             Sample.v1_2_30 Scenario.v2_0_0 [] [Sample.v1_2_30]
             Sample.vsixB Scenario.bytesB
             eq_refl eq_refl eq_refl eq_refl eq_refl eq_refl eq_refl
             eq_refl eq_refl).
  repeat split.
Defined.



(** X17.  When the gallery answers each request the same way whatever its
    state, and [getLatestVersion] and [getVsixDownloadUrl] resolve, then
    [downloadExtensionVsix], run in the same world, fetches exactly the URL
    that [getVsixDownloadUrl] resolves with; when it resolves, the file is
    named after the version that [getLatestVersion] resolves with; and it
    can only be rejected by the download or by the writer. *)
Theorem download_agrees_with_lookups
    {S : Type} (P : Platform S) (publisher extension : string)
    (outputDir_opt : option string) (w : World S)
    (latest downloadUrl : string) :
  deterministicGallery P ->
  fst (getLatestVersion P publisher extension w) = Resolved latest ->
  fst (getVsixDownloadUrl P publisher extension w) = Resolved downloadUrl ->
  let settled := downloadExtensionVsix P publisher extension outputDir_opt w in
  fetched (snd settled) = fetched w ++ [downloadUrl]
  /\ (forall path,
        fst settled = Resolved path ->
        path = join P (default "." outputDir_opt)
                 (vsixFileName publisher extension latest))
  /\ (forall e,
        fst settled = Rejected e -> getFailure P e \/ writeFailure P e).
Proof.
  intros Hgallery Hlatest Hurl.
  rewrite getVsixDownloadUrl_post in Hurl.
  unfold getLatestVersion, bind in Hlatest.
  rewrite getExtensionVersion_post in Hlatest.
  set (request := queryRequest publisher extension [QF1; QF2]) in *.
  pose proof (Hgallery request (remote w)
                (snd (axios_post P request (remote w)))) as Hsame.
  destruct (axios_post P request (remote w)) as [answer s1] eqn:Hpost1.
  simpl in Hsame, Hlatest, Hurl.
  destruct (resolveExtension answer) as [info | e0] eqn:Hresolve;
    [| discriminate].
  destruct (versions info !! 0%nat) as [entry |] eqn:Hentry;
    [| discriminate].
  unfold prop, ret in Hlatest. simpl in Hlatest. injection Hlatest as <-.
  destruct (find isVsixAsset (files entry)) as [vsixAsset |] eqn:Hfind;
    [| discriminate].
  injection Hurl as <-.
  destruct (axios_post P request s1) as [answer' s2] eqn:Hpost2.
  simpl in Hsame. subst answer'.
  assert (Hrun :
            downloadExtensionVsix P publisher extension outputDir_opt w
            = downloadFile P (source vsixAsset)
                (join P (default "." outputDir_opt)
                   (vsixFileName publisher extension (version entry)))
                (afterPost (afterPost w request s1) request s2)).
  { unfold downloadExtensionVsix. cbv zeta. unfold bind.
    rewrite getExtensionVersion_post. fold request. rewrite Hpost1.
    simpl fst. simpl snd. rewrite Hresolve, Hentry.
    rewrite getVsixDownloadUrl_post. fold request. simpl remote.
    rewrite Hpost2. simpl fst. simpl snd.
    rewrite Hresolve, Hentry, Hfind. reflexivity. }
  cbv zeta. rewrite Hrun. unfold downloadFile. simpl remote.
  destruct (axios_get P (source vsixAsset) s2) as [[e2 | data] s3]
    eqn:Hget; simpl.
  - repeat split; [discriminate |].
    intros e [= <-]. left. eexists _, s2. now rewrite Hget.
  - destruct (createWriteStream P _) as [e3 |] eqn:Hwrite; simpl.
    + repeat split; [discriminate |].
      intros e [= <-]. right. eexists. exact Hwrite.
    + repeat split; [congruence | discriminate].
Qed.

Lemma download_agrees_with_lookups_witness :
  fetched (snd (downloadExtensionVsix Sample.found "ms-vscode" "cpptools"
                  (Some "out") Sample.start))
  = ["https://cdn.example/a.vsix"].
Proof.
  assert (Hg : deterministicGallery Sample.found)
    by (intros r s1 s2; reflexivity).
  apply (proj1 (download_agrees_with_lookups Sample.found "ms-vscode"
                  "cpptools" (Some "out") Sample.start "1.2.30"
                  "https://cdn.example/a.vsix" Hg eq_refl eq_refl)).
Defined.

(** X18.  [getVsixDownloadUrl] looks at the first entry of the versions
    list only: when that entry has no VSIX package among its files, it
    rejects with [VsixFileNotFoundError], whatever the files of the older
    versions are. *)
Theorem no_fallback_to_older_versions
    {S : Type} (P : Platform S) (publisher extension : string)
    (w : World S) (s' : S)
    (first : SearchResults) (rest : list SearchResults)
    (extensionInfo : ExtensionInfo) (others : list ExtensionInfo)
    (latest : ExtensionVersion) (older : list ExtensionVersion) :
  axios_post P (queryRequest publisher extension [QF1; QF2]) (remote w)
    = (inr (first :: rest), s') ->
  extensions first = extensionInfo :: others ->
  versions extensionInfo = latest :: older ->
  (forall file, In file (files latest) -> assetType file <> VSIXPackage) ->
  getVsixDownloadUrl P publisher extension w
  = (Rejected (VsixFileNotFoundError "VSIX file not found."),
     afterPost w (queryRequest publisher extension [QF1; QF2]) s').
Proof.
  intros Hpost Hext Hver Hnone.
  rewrite getVsixDownloadUrl_post, Hpost. simpl.
  rewrite Hext, Hver. simpl.
  rewrite find_absent; [reflexivity |].
  intros file Hin. apply isVsixAsset_false. now apply Hnone.
Qed.

Lemma no_fallback_to_older_versions_witness :
  fst (getVsixDownloadUrl
         (Sample.constant
            [ {| extensions :=
                   [Sample.cpptools [Sample.v1_2_0; Sample.v1_2_30]] |} ])
         "ms-vscode" "cpptools" Sample.start)
  = Rejected (VsixFileNotFoundError "VSIX file not found.").
Proof.
  rewrite (no_fallback_to_older_versions
             (Sample.constant
                [ {| extensions :=
                       [Sample.cpptools [Sample.v1_2_0; Sample.v1_2_30]] |} ])
             "ms-vscode" "cpptools" Sample.start tt
             {| extensions :=
                  [Sample.cpptools [Sample.v1_2_0; Sample.v1_2_30]] |}
             [] (Sample.cpptools [Sample.v1_2_0; Sample.v1_2_30]) []
             Sample.v1_2_0 [Sample.v1_2_30] eq_refl eq_refl eq_refl).
  - reflexivity.
  - intros file [<- | []]. discriminate.
Defined.

(** X19.  Whatever the outcome, [downloadExtensionVsix] sends the query
    with the flags [1, 2] once or twice and nothing else, fetches at most
    one URL, and either leaves the files as they were or has fetched a URL
    and set the content of one path. *)
Theorem download_footprint
    {S : Type} (P : Platform S) (publisher extension : string)
    (outputDir_opt : option string) (w : World S) :
  let request := queryRequest publisher extension [QF1; QF2] in
  let w' :=
    snd (downloadExtensionVsix P publisher extension outputDir_opt w) in
  (posted w' = posted w ++ [request]
   \/ posted w' = posted w ++ [request; request])
  /\ (fetched w' = fetched w
      \/ exists downloadUrl, fetched w' = fetched w ++ [downloadUrl])
  /\ (fs w' = fs w
      \/ exists downloadUrl path data,
           fetched w' = fetched w ++ [downloadUrl]
           /\ fs w' = <[path := data]> (fs w)).
Proof.
  intros request w'.
  pose (shape := fun w0 : World S =>
    (exists s1, w0 = afterPost w request s1)
    \/ (exists s1 s2, w0 = afterPost (afterPost w request s1) request s2)
    \/ (exists s1 s2 s3 url,
          w0 = afterGet (afterPost (afterPost w request s1) request s2)
                 url s3)
    \/ (exists s1 s2 s3 url path data,
          w0 = afterWrite
                 (afterGet (afterPost (afterPost w request s1) request s2)
                    url s3) path data)).
  assert (Hshape : shape w').
  { subst w'. unfold downloadExtensionVsix. cbv zeta. unfold bind at 1.
    rewrite getExtensionVersion_post. fold request.
    destruct (axios_post P request (remote w)) as [answer s1].
    simpl fst. simpl snd.
    destruct (resolveExtension answer) as [info | e0];
      [| left; now exists s1].
    unfold bind at 1. rewrite getVsixDownloadUrl_post. fold request.
    simpl remote.
    destruct (axios_post P request s1) as [answer2 s2].
    simpl fst. simpl snd.
    destruct (resolveExtension answer2) as [info2 | e1];
      [| right; left; now exists s1, s2].
    destruct (versions info2 !! 0%nat) as [latest2 |];
      [| right; left; now exists s1, s2].
    destruct (find isVsixAsset (files latest2)) as [vsixAsset |];
      [| right; left; now exists s1, s2].
    destruct (versions info !! 0%nat) as [latest |];
      [| right; left; now exists s1, s2].
    unfold prop, bind, ret, downloadFile. simpl remote.
    destruct (axios_get P (source vsixAsset) s2) as [[e2 | data] s3].
    - right. right. left. now exists s1, s2, s3, (source vsixAsset).
    - destruct (createWriteStream P _) as [e3 |].
      + right. right. left. now exists s1, s2, s3, (source vsixAsset).
      + right. right. right.
        now eexists s1, s2, s3, (source vsixAsset), _, data. }
  clearbody w'. unfold shape in Hshape. clear shape.
  destruct Hshape as [(s1 & ->) | [(s1 & s2 & ->)
    | [(s1 & s2 & s3 & url & ->)
      | (s1 & s2 & s3 & url & path & data & ->)]]]; simpl.
  - repeat split; auto.
  - rewrite <- app_assoc. repeat split; auto.
  - rewrite <- app_assoc. repeat split; eauto.
  - rewrite <- app_assoc. repeat split; eauto 10.
Qed.
